(** * telanlys: pattern extraction and identifier classification

    A shallow embedding of [telanlys.py] (the analyzer behind the telecom
    testing-number report) and the properties of its design contract.

    - [Unicode]: the character classes of the interpreter's character
      database that the program consults through [re] and [str] methods.
    - [Py]: the builtins the program calls ([str.strip], [str.isdigit],
      [str.isalnum], [str.join], [max], [sorted], [set], list indexing),
      with their exceptions.
    - [Re]: [re.findall] for the pattern [\d+] and [re.sub] for an escaped
      literal.
    - [Telanlys]: [analyze_messages], [get_identifier_type] and the candidate
      selection of [main].
    - [Main]: [validate_traffic_file], [validate_tags_file], the validation
      of [main] and the loop that builds its detailed table.

    A Python [str] is a sequence of Unicode code points, so a string is a
    list of code points here, not a list of bytes. *)

From Stdlib Require Import String Ascii Decimal.
From stdpp Require Import base tactics option numbers list sorting lexico gmap.

#[local] Set Warnings "-clear-no-such-hyp".
Local Open Scope nat_scope.

(** ** Character database *)

Module Unicode.

(** A code point.  Python strings hold values in [0, 0x10FFFF]; larger
    numbers belong to no class below. *)
Definition char := N.

Definition in_ranges (table : list (N * N)) (c : char) : bool :=
  existsb (fun r => (fst r <=? c)%N && (c <=? snd r)%N) table.

(** The tables are those of Unicode 14.0.0, the database of CPython 3.11,
    as inclusive ranges of code points. *)

(** Code points with the decimal-digit property (category Nd): the
    characters [\d] matches in a str pattern, and [str.isdecimal]. *)
Definition decimal_table : list (N * N) :=
  [
   (0x30, 0x39); (0x660, 0x669); (0x6F0, 0x6F9); (0x7C0, 0x7C9); (0x966, 0x96F); (0x9E6, 0x9EF);
   (0xA66, 0xA6F); (0xAE6, 0xAEF); (0xB66, 0xB6F); (0xBE6, 0xBEF); (0xC66, 0xC6F); (0xCE6, 0xCEF);
   (0xD66, 0xD6F); (0xDE6, 0xDEF); (0xE50, 0xE59); (0xED0, 0xED9); (0xF20, 0xF29); (0x1040, 0x1049);
   (0x1090, 0x1099); (0x17E0, 0x17E9); (0x1810, 0x1819); (0x1946, 0x194F); (0x19D0, 0x19D9); (0x1A80, 0x1A89);
   (0x1A90, 0x1A99); (0x1B50, 0x1B59); (0x1BB0, 0x1BB9); (0x1C40, 0x1C49); (0x1C50, 0x1C59); (0xA620, 0xA629);
   (0xA8D0, 0xA8D9); (0xA900, 0xA909); (0xA9D0, 0xA9D9); (0xA9F0, 0xA9F9); (0xAA50, 0xAA59); (0xABF0, 0xABF9);
   (0xFF10, 0xFF19); (0x104A0, 0x104A9); (0x10D30, 0x10D39); (0x11066, 0x1106F); (0x110F0, 0x110F9); (0x11136, 0x1113F);
   (0x111D0, 0x111D9); (0x112F0, 0x112F9); (0x11450, 0x11459); (0x114D0, 0x114D9); (0x11650, 0x11659); (0x116C0, 0x116C9);
   (0x11730, 0x11739); (0x118E0, 0x118E9); (0x11950, 0x11959); (0x11C50, 0x11C59); (0x11D50, 0x11D59); (0x11DA0, 0x11DA9);
   (0x16A60, 0x16A69); (0x16AC0, 0x16AC9); (0x16B50, 0x16B59); (0x1D7CE, 0x1D7FF); (0x1E140, 0x1E149); (0x1E2F0, 0x1E2F9);
   (0x1E950, 0x1E959); (0x1FBF0, 0x1FBF9)
  ]%N.

(** Code points [str.isspace] accepts; [str.strip] without argument
    removes exactly these. *)
Definition space_table : list (N * N) :=
  [
   (0x9, 0xD); (0x1C, 0x20); (0x85, 0x85); (0xA0, 0xA0); (0x1680, 0x1680); (0x2000, 0x200A);
   (0x2028, 0x2029); (0x202F, 0x202F); (0x205F, 0x205F); (0x3000, 0x3000)
  ]%N.

(** Code points [str.isdigit] accepts (Numeric_Type Digit or Decimal). *)
Definition digit_table : list (N * N) :=
  [
   (0x30, 0x39); (0xB2, 0xB3); (0xB9, 0xB9); (0x660, 0x669); (0x6F0, 0x6F9); (0x7C0, 0x7C9);
   (0x966, 0x96F); (0x9E6, 0x9EF); (0xA66, 0xA6F); (0xAE6, 0xAEF); (0xB66, 0xB6F); (0xBE6, 0xBEF);
   (0xC66, 0xC6F); (0xCE6, 0xCEF); (0xD66, 0xD6F); (0xDE6, 0xDEF); (0xE50, 0xE59); (0xED0, 0xED9);
   (0xF20, 0xF29); (0x1040, 0x1049); (0x1090, 0x1099); (0x1369, 0x1371); (0x17E0, 0x17E9); (0x1810, 0x1819);
   (0x1946, 0x194F); (0x19D0, 0x19DA); (0x1A80, 0x1A89); (0x1A90, 0x1A99); (0x1B50, 0x1B59); (0x1BB0, 0x1BB9);
   (0x1C40, 0x1C49); (0x1C50, 0x1C59); (0x2070, 0x2070); (0x2074, 0x2079); (0x2080, 0x2089); (0x2460, 0x2468);
   (0x2474, 0x247C); (0x2488, 0x2490); (0x24EA, 0x24EA); (0x24F5, 0x24FD); (0x24FF, 0x24FF); (0x2776, 0x277E);
   (0x2780, 0x2788); (0x278A, 0x2792); (0xA620, 0xA629); (0xA8D0, 0xA8D9); (0xA900, 0xA909); (0xA9D0, 0xA9D9);
   (0xA9F0, 0xA9F9); (0xAA50, 0xAA59); (0xABF0, 0xABF9); (0xFF10, 0xFF19); (0x104A0, 0x104A9); (0x10A40, 0x10A43);
   (0x10D30, 0x10D39); (0x10E60, 0x10E68); (0x11052, 0x1105A); (0x11066, 0x1106F); (0x110F0, 0x110F9); (0x11136, 0x1113F);
   (0x111D0, 0x111D9); (0x112F0, 0x112F9); (0x11450, 0x11459); (0x114D0, 0x114D9); (0x11650, 0x11659); (0x116C0, 0x116C9);
   (0x11730, 0x11739); (0x118E0, 0x118E9); (0x11950, 0x11959); (0x11C50, 0x11C59); (0x11D50, 0x11D59); (0x11DA0, 0x11DA9);
   (0x16A60, 0x16A69); (0x16AC0, 0x16AC9); (0x16B50, 0x16B59); (0x1D7CE, 0x1D7FF); (0x1E140, 0x1E149); (0x1E2F0, 0x1E2F9);
   (0x1E950, 0x1E959); (0x1F100, 0x1F10A); (0x1FBF0, 0x1FBF9)
  ]%N.

(** Code points [str.isalnum] accepts (alphabetic, decimal, digit or numeric). *)
Definition alnum_table : list (N * N) :=
  [
   (0x30, 0x39); (0x41, 0x5A); (0x61, 0x7A); (0xAA, 0xAA); (0xB2, 0xB3); (0xB5, 0xB5);
   (0xB9, 0xBA); (0xBC, 0xBE); (0xC0, 0xD6); (0xD8, 0xF6); (0xF8, 0x2C1); (0x2C6, 0x2D1);
   (0x2E0, 0x2E4); (0x2EC, 0x2EC); (0x2EE, 0x2EE); (0x370, 0x374); (0x376, 0x377); (0x37A, 0x37D);
   (0x37F, 0x37F); (0x386, 0x386); (0x388, 0x38A); (0x38C, 0x38C); (0x38E, 0x3A1); (0x3A3, 0x3F5);
   (0x3F7, 0x481); (0x48A, 0x52F); (0x531, 0x556); (0x559, 0x559); (0x560, 0x588); (0x5D0, 0x5EA);
   (0x5EF, 0x5F2); (0x620, 0x64A); (0x660, 0x669); (0x66E, 0x66F); (0x671, 0x6D3); (0x6D5, 0x6D5);
   (0x6E5, 0x6E6); (0x6EE, 0x6FC); (0x6FF, 0x6FF); (0x710, 0x710); (0x712, 0x72F); (0x74D, 0x7A5);
   (0x7B1, 0x7B1); (0x7C0, 0x7EA); (0x7F4, 0x7F5); (0x7FA, 0x7FA); (0x800, 0x815); (0x81A, 0x81A);
   (0x824, 0x824); (0x828, 0x828); (0x840, 0x858); (0x860, 0x86A); (0x870, 0x887); (0x889, 0x88E);
   (0x8A0, 0x8C9); (0x904, 0x939); (0x93D, 0x93D); (0x950, 0x950); (0x958, 0x961); (0x966, 0x96F);
   (0x971, 0x980); (0x985, 0x98C); (0x98F, 0x990); (0x993, 0x9A8); (0x9AA, 0x9B0); (0x9B2, 0x9B2);
   (0x9B6, 0x9B9); (0x9BD, 0x9BD); (0x9CE, 0x9CE); (0x9DC, 0x9DD); (0x9DF, 0x9E1); (0x9E6, 0x9F1);
   (0x9F4, 0x9F9); (0x9FC, 0x9FC); (0xA05, 0xA0A); (0xA0F, 0xA10); (0xA13, 0xA28); (0xA2A, 0xA30);
   (0xA32, 0xA33); (0xA35, 0xA36); (0xA38, 0xA39); (0xA59, 0xA5C); (0xA5E, 0xA5E); (0xA66, 0xA6F);
   (0xA72, 0xA74); (0xA85, 0xA8D); (0xA8F, 0xA91); (0xA93, 0xAA8); (0xAAA, 0xAB0); (0xAB2, 0xAB3);
   (0xAB5, 0xAB9); (0xABD, 0xABD); (0xAD0, 0xAD0); (0xAE0, 0xAE1); (0xAE6, 0xAEF); (0xAF9, 0xAF9);
   (0xB05, 0xB0C); (0xB0F, 0xB10); (0xB13, 0xB28); (0xB2A, 0xB30); (0xB32, 0xB33); (0xB35, 0xB39);
   (0xB3D, 0xB3D); (0xB5C, 0xB5D); (0xB5F, 0xB61); (0xB66, 0xB6F); (0xB71, 0xB77); (0xB83, 0xB83);
   (0xB85, 0xB8A); (0xB8E, 0xB90); (0xB92, 0xB95); (0xB99, 0xB9A); (0xB9C, 0xB9C); (0xB9E, 0xB9F);
   (0xBA3, 0xBA4); (0xBA8, 0xBAA); (0xBAE, 0xBB9); (0xBD0, 0xBD0); (0xBE6, 0xBF2); (0xC05, 0xC0C);
   (0xC0E, 0xC10); (0xC12, 0xC28); (0xC2A, 0xC39); (0xC3D, 0xC3D); (0xC58, 0xC5A); (0xC5D, 0xC5D);
   (0xC60, 0xC61); (0xC66, 0xC6F); (0xC78, 0xC7E); (0xC80, 0xC80); (0xC85, 0xC8C); (0xC8E, 0xC90);
   (0xC92, 0xCA8); (0xCAA, 0xCB3); (0xCB5, 0xCB9); (0xCBD, 0xCBD); (0xCDD, 0xCDE); (0xCE0, 0xCE1);
   (0xCE6, 0xCEF); (0xCF1, 0xCF2); (0xD04, 0xD0C); (0xD0E, 0xD10); (0xD12, 0xD3A); (0xD3D, 0xD3D);
   (0xD4E, 0xD4E); (0xD54, 0xD56); (0xD58, 0xD61); (0xD66, 0xD78); (0xD7A, 0xD7F); (0xD85, 0xD96);
   (0xD9A, 0xDB1); (0xDB3, 0xDBB); (0xDBD, 0xDBD); (0xDC0, 0xDC6); (0xDE6, 0xDEF); (0xE01, 0xE30);
   (0xE32, 0xE33); (0xE40, 0xE46); (0xE50, 0xE59); (0xE81, 0xE82); (0xE84, 0xE84); (0xE86, 0xE8A);
   (0xE8C, 0xEA3); (0xEA5, 0xEA5); (0xEA7, 0xEB0); (0xEB2, 0xEB3); (0xEBD, 0xEBD); (0xEC0, 0xEC4);
   (0xEC6, 0xEC6); (0xED0, 0xED9); (0xEDC, 0xEDF); (0xF00, 0xF00); (0xF20, 0xF33); (0xF40, 0xF47);
   (0xF49, 0xF6C); (0xF88, 0xF8C); (0x1000, 0x102A); (0x103F, 0x1049); (0x1050, 0x1055); (0x105A, 0x105D);
   (0x1061, 0x1061); (0x1065, 0x1066); (0x106E, 0x1070); (0x1075, 0x1081); (0x108E, 0x108E); (0x1090, 0x1099);
   (0x10A0, 0x10C5); (0x10C7, 0x10C7); (0x10CD, 0x10CD); (0x10D0, 0x10FA); (0x10FC, 0x1248); (0x124A, 0x124D);
   (0x1250, 0x1256); (0x1258, 0x1258); (0x125A, 0x125D); (0x1260, 0x1288); (0x128A, 0x128D); (0x1290, 0x12B0);
   (0x12B2, 0x12B5); (0x12B8, 0x12BE); (0x12C0, 0x12C0); (0x12C2, 0x12C5); (0x12C8, 0x12D6); (0x12D8, 0x1310);
   (0x1312, 0x1315); (0x1318, 0x135A); (0x1369, 0x137C); (0x1380, 0x138F); (0x13A0, 0x13F5); (0x13F8, 0x13FD);
   (0x1401, 0x166C); (0x166F, 0x167F); (0x1681, 0x169A); (0x16A0, 0x16EA); (0x16EE, 0x16F8); (0x1700, 0x1711);
   (0x171F, 0x1731); (0x1740, 0x1751); (0x1760, 0x176C); (0x176E, 0x1770); (0x1780, 0x17B3); (0x17D7, 0x17D7);
   (0x17DC, 0x17DC); (0x17E0, 0x17E9); (0x17F0, 0x17F9); (0x1810, 0x1819); (0x1820, 0x1878); (0x1880, 0x1884);
   (0x1887, 0x18A8); (0x18AA, 0x18AA); (0x18B0, 0x18F5); (0x1900, 0x191E); (0x1946, 0x196D); (0x1970, 0x1974);
   (0x1980, 0x19AB); (0x19B0, 0x19C9); (0x19D0, 0x19DA); (0x1A00, 0x1A16); (0x1A20, 0x1A54); (0x1A80, 0x1A89);
   (0x1A90, 0x1A99); (0x1AA7, 0x1AA7); (0x1B05, 0x1B33); (0x1B45, 0x1B4C); (0x1B50, 0x1B59); (0x1B83, 0x1BA0);
   (0x1BAE, 0x1BE5); (0x1C00, 0x1C23); (0x1C40, 0x1C49); (0x1C4D, 0x1C7D); (0x1C80, 0x1C88); (0x1C90, 0x1CBA);
   (0x1CBD, 0x1CBF); (0x1CE9, 0x1CEC); (0x1CEE, 0x1CF3); (0x1CF5, 0x1CF6); (0x1CFA, 0x1CFA); (0x1D00, 0x1DBF);
   (0x1E00, 0x1F15); (0x1F18, 0x1F1D); (0x1F20, 0x1F45); (0x1F48, 0x1F4D); (0x1F50, 0x1F57); (0x1F59, 0x1F59);
   (0x1F5B, 0x1F5B); (0x1F5D, 0x1F5D); (0x1F5F, 0x1F7D); (0x1F80, 0x1FB4); (0x1FB6, 0x1FBC); (0x1FBE, 0x1FBE);
   (0x1FC2, 0x1FC4); (0x1FC6, 0x1FCC); (0x1FD0, 0x1FD3); (0x1FD6, 0x1FDB); (0x1FE0, 0x1FEC); (0x1FF2, 0x1FF4);
   (0x1FF6, 0x1FFC); (0x2070, 0x2071); (0x2074, 0x2079); (0x207F, 0x2089); (0x2090, 0x209C); (0x2102, 0x2102);
   (0x2107, 0x2107); (0x210A, 0x2113); (0x2115, 0x2115); (0x2119, 0x211D); (0x2124, 0x2124); (0x2126, 0x2126);
   (0x2128, 0x2128); (0x212A, 0x212D); (0x212F, 0x2139); (0x213C, 0x213F); (0x2145, 0x2149); (0x214E, 0x214E);
   (0x2150, 0x2189); (0x2460, 0x249B); (0x24EA, 0x24FF); (0x2776, 0x2793); (0x2C00, 0x2CE4); (0x2CEB, 0x2CEE);
   (0x2CF2, 0x2CF3); (0x2CFD, 0x2CFD); (0x2D00, 0x2D25); (0x2D27, 0x2D27); (0x2D2D, 0x2D2D); (0x2D30, 0x2D67);
   (0x2D6F, 0x2D6F); (0x2D80, 0x2D96); (0x2DA0, 0x2DA6); (0x2DA8, 0x2DAE); (0x2DB0, 0x2DB6); (0x2DB8, 0x2DBE);
   (0x2DC0, 0x2DC6); (0x2DC8, 0x2DCE); (0x2DD0, 0x2DD6); (0x2DD8, 0x2DDE); (0x2E2F, 0x2E2F); (0x3005, 0x3007);
   (0x3021, 0x3029); (0x3031, 0x3035); (0x3038, 0x303C); (0x3041, 0x3096); (0x309D, 0x309F); (0x30A1, 0x30FA);
   (0x30FC, 0x30FF); (0x3105, 0x312F); (0x3131, 0x318E); (0x3192, 0x3195); (0x31A0, 0x31BF); (0x31F0, 0x31FF);
   (0x3220, 0x3229); (0x3248, 0x324F); (0x3251, 0x325F); (0x3280, 0x3289); (0x32B1, 0x32BF); (0x3400, 0x4DBF);
   (0x4E00, 0xA48C); (0xA4D0, 0xA4FD); (0xA500, 0xA60C); (0xA610, 0xA62B); (0xA640, 0xA66E); (0xA67F, 0xA69D);
   (0xA6A0, 0xA6EF); (0xA717, 0xA71F); (0xA722, 0xA788); (0xA78B, 0xA7CA); (0xA7D0, 0xA7D1); (0xA7D3, 0xA7D3);
   (0xA7D5, 0xA7D9); (0xA7F2, 0xA801); (0xA803, 0xA805); (0xA807, 0xA80A); (0xA80C, 0xA822); (0xA830, 0xA835);
   (0xA840, 0xA873); (0xA882, 0xA8B3); (0xA8D0, 0xA8D9); (0xA8F2, 0xA8F7); (0xA8FB, 0xA8FB); (0xA8FD, 0xA8FE);
   (0xA900, 0xA925); (0xA930, 0xA946); (0xA960, 0xA97C); (0xA984, 0xA9B2); (0xA9CF, 0xA9D9); (0xA9E0, 0xA9E4);
   (0xA9E6, 0xA9FE); (0xAA00, 0xAA28); (0xAA40, 0xAA42); (0xAA44, 0xAA4B); (0xAA50, 0xAA59); (0xAA60, 0xAA76);
   (0xAA7A, 0xAA7A); (0xAA7E, 0xAAAF); (0xAAB1, 0xAAB1); (0xAAB5, 0xAAB6); (0xAAB9, 0xAABD); (0xAAC0, 0xAAC0);
   (0xAAC2, 0xAAC2); (0xAADB, 0xAADD); (0xAAE0, 0xAAEA); (0xAAF2, 0xAAF4); (0xAB01, 0xAB06); (0xAB09, 0xAB0E);
   (0xAB11, 0xAB16); (0xAB20, 0xAB26); (0xAB28, 0xAB2E); (0xAB30, 0xAB5A); (0xAB5C, 0xAB69); (0xAB70, 0xABE2);
   (0xABF0, 0xABF9); (0xAC00, 0xD7A3); (0xD7B0, 0xD7C6); (0xD7CB, 0xD7FB); (0xF900, 0xFA6D); (0xFA70, 0xFAD9);
   (0xFB00, 0xFB06); (0xFB13, 0xFB17); (0xFB1D, 0xFB1D); (0xFB1F, 0xFB28); (0xFB2A, 0xFB36); (0xFB38, 0xFB3C);
   (0xFB3E, 0xFB3E); (0xFB40, 0xFB41); (0xFB43, 0xFB44); (0xFB46, 0xFBB1); (0xFBD3, 0xFD3D); (0xFD50, 0xFD8F);
   (0xFD92, 0xFDC7); (0xFDF0, 0xFDFB); (0xFE70, 0xFE74); (0xFE76, 0xFEFC); (0xFF10, 0xFF19); (0xFF21, 0xFF3A);
   (0xFF41, 0xFF5A); (0xFF66, 0xFFBE); (0xFFC2, 0xFFC7); (0xFFCA, 0xFFCF); (0xFFD2, 0xFFD7); (0xFFDA, 0xFFDC);
   (0x10000, 0x1000B); (0x1000D, 0x10026); (0x10028, 0x1003A); (0x1003C, 0x1003D); (0x1003F, 0x1004D); (0x10050, 0x1005D);
   (0x10080, 0x100FA); (0x10107, 0x10133); (0x10140, 0x10178); (0x1018A, 0x1018B); (0x10280, 0x1029C); (0x102A0, 0x102D0);
   (0x102E1, 0x102FB); (0x10300, 0x10323); (0x1032D, 0x1034A); (0x10350, 0x10375); (0x10380, 0x1039D); (0x103A0, 0x103C3);
   (0x103C8, 0x103CF); (0x103D1, 0x103D5); (0x10400, 0x1049D); (0x104A0, 0x104A9); (0x104B0, 0x104D3); (0x104D8, 0x104FB);
   (0x10500, 0x10527); (0x10530, 0x10563); (0x10570, 0x1057A); (0x1057C, 0x1058A); (0x1058C, 0x10592); (0x10594, 0x10595);
   (0x10597, 0x105A1); (0x105A3, 0x105B1); (0x105B3, 0x105B9); (0x105BB, 0x105BC); (0x10600, 0x10736); (0x10740, 0x10755);
   (0x10760, 0x10767); (0x10780, 0x10785); (0x10787, 0x107B0); (0x107B2, 0x107BA); (0x10800, 0x10805); (0x10808, 0x10808);
   (0x1080A, 0x10835); (0x10837, 0x10838); (0x1083C, 0x1083C); (0x1083F, 0x10855); (0x10858, 0x10876); (0x10879, 0x1089E);
   (0x108A7, 0x108AF); (0x108E0, 0x108F2); (0x108F4, 0x108F5); (0x108FB, 0x1091B); (0x10920, 0x10939); (0x10980, 0x109B7);
   (0x109BC, 0x109CF); (0x109D2, 0x10A00); (0x10A10, 0x10A13); (0x10A15, 0x10A17); (0x10A19, 0x10A35); (0x10A40, 0x10A48);
   (0x10A60, 0x10A7E); (0x10A80, 0x10A9F); (0x10AC0, 0x10AC7); (0x10AC9, 0x10AE4); (0x10AEB, 0x10AEF); (0x10B00, 0x10B35);
   (0x10B40, 0x10B55); (0x10B58, 0x10B72); (0x10B78, 0x10B91); (0x10BA9, 0x10BAF); (0x10C00, 0x10C48); (0x10C80, 0x10CB2);
   (0x10CC0, 0x10CF2); (0x10CFA, 0x10D23); (0x10D30, 0x10D39); (0x10E60, 0x10E7E); (0x10E80, 0x10EA9); (0x10EB0, 0x10EB1);
   (0x10F00, 0x10F27); (0x10F30, 0x10F45); (0x10F51, 0x10F54); (0x10F70, 0x10F81); (0x10FB0, 0x10FCB); (0x10FE0, 0x10FF6);
   (0x11003, 0x11037); (0x11052, 0x1106F); (0x11071, 0x11072); (0x11075, 0x11075); (0x11083, 0x110AF); (0x110D0, 0x110E8);
   (0x110F0, 0x110F9); (0x11103, 0x11126); (0x11136, 0x1113F); (0x11144, 0x11144); (0x11147, 0x11147); (0x11150, 0x11172);
   (0x11176, 0x11176); (0x11183, 0x111B2); (0x111C1, 0x111C4); (0x111D0, 0x111DA); (0x111DC, 0x111DC); (0x111E1, 0x111F4);
   (0x11200, 0x11211); (0x11213, 0x1122B); (0x11280, 0x11286); (0x11288, 0x11288); (0x1128A, 0x1128D); (0x1128F, 0x1129D);
   (0x1129F, 0x112A8); (0x112B0, 0x112DE); (0x112F0, 0x112F9); (0x11305, 0x1130C); (0x1130F, 0x11310); (0x11313, 0x11328);
   (0x1132A, 0x11330); (0x11332, 0x11333); (0x11335, 0x11339); (0x1133D, 0x1133D); (0x11350, 0x11350); (0x1135D, 0x11361);
   (0x11400, 0x11434); (0x11447, 0x1144A); (0x11450, 0x11459); (0x1145F, 0x11461); (0x11480, 0x114AF); (0x114C4, 0x114C5);
   (0x114C7, 0x114C7); (0x114D0, 0x114D9); (0x11580, 0x115AE); (0x115D8, 0x115DB); (0x11600, 0x1162F); (0x11644, 0x11644);
   (0x11650, 0x11659); (0x11680, 0x116AA); (0x116B8, 0x116B8); (0x116C0, 0x116C9); (0x11700, 0x1171A); (0x11730, 0x1173B);
   (0x11740, 0x11746); (0x11800, 0x1182B); (0x118A0, 0x118F2); (0x118FF, 0x11906); (0x11909, 0x11909); (0x1190C, 0x11913);
   (0x11915, 0x11916); (0x11918, 0x1192F); (0x1193F, 0x1193F); (0x11941, 0x11941); (0x11950, 0x11959); (0x119A0, 0x119A7);
   (0x119AA, 0x119D0); (0x119E1, 0x119E1); (0x119E3, 0x119E3); (0x11A00, 0x11A00); (0x11A0B, 0x11A32); (0x11A3A, 0x11A3A);
   (0x11A50, 0x11A50); (0x11A5C, 0x11A89); (0x11A9D, 0x11A9D); (0x11AB0, 0x11AF8); (0x11C00, 0x11C08); (0x11C0A, 0x11C2E);
   (0x11C40, 0x11C40); (0x11C50, 0x11C6C); (0x11C72, 0x11C8F); (0x11D00, 0x11D06); (0x11D08, 0x11D09); (0x11D0B, 0x11D30);
   (0x11D46, 0x11D46); (0x11D50, 0x11D59); (0x11D60, 0x11D65); (0x11D67, 0x11D68); (0x11D6A, 0x11D89); (0x11D98, 0x11D98);
   (0x11DA0, 0x11DA9); (0x11EE0, 0x11EF2); (0x11FB0, 0x11FB0); (0x11FC0, 0x11FD4); (0x12000, 0x12399); (0x12400, 0x1246E);
   (0x12480, 0x12543); (0x12F90, 0x12FF0); (0x13000, 0x1342E); (0x14400, 0x14646); (0x16800, 0x16A38); (0x16A40, 0x16A5E);
   (0x16A60, 0x16A69); (0x16A70, 0x16ABE); (0x16AC0, 0x16AC9); (0x16AD0, 0x16AED); (0x16B00, 0x16B2F); (0x16B40, 0x16B43);
   (0x16B50, 0x16B59); (0x16B5B, 0x16B61); (0x16B63, 0x16B77); (0x16B7D, 0x16B8F); (0x16E40, 0x16E96); (0x16F00, 0x16F4A);
   (0x16F50, 0x16F50); (0x16F93, 0x16F9F); (0x16FE0, 0x16FE1); (0x16FE3, 0x16FE3); (0x17000, 0x187F7); (0x18800, 0x18CD5);
   (0x18D00, 0x18D08); (0x1AFF0, 0x1AFF3); (0x1AFF5, 0x1AFFB); (0x1AFFD, 0x1AFFE); (0x1B000, 0x1B122); (0x1B150, 0x1B152);
   (0x1B164, 0x1B167); (0x1B170, 0x1B2FB); (0x1BC00, 0x1BC6A); (0x1BC70, 0x1BC7C); (0x1BC80, 0x1BC88); (0x1BC90, 0x1BC99);
   (0x1D2E0, 0x1D2F3); (0x1D360, 0x1D378); (0x1D400, 0x1D454); (0x1D456, 0x1D49C); (0x1D49E, 0x1D49F); (0x1D4A2, 0x1D4A2);
   (0x1D4A5, 0x1D4A6); (0x1D4A9, 0x1D4AC); (0x1D4AE, 0x1D4B9); (0x1D4BB, 0x1D4BB); (0x1D4BD, 0x1D4C3); (0x1D4C5, 0x1D505);
   (0x1D507, 0x1D50A); (0x1D50D, 0x1D514); (0x1D516, 0x1D51C); (0x1D51E, 0x1D539); (0x1D53B, 0x1D53E); (0x1D540, 0x1D544);
   (0x1D546, 0x1D546); (0x1D54A, 0x1D550); (0x1D552, 0x1D6A5); (0x1D6A8, 0x1D6C0); (0x1D6C2, 0x1D6DA); (0x1D6DC, 0x1D6FA);
   (0x1D6FC, 0x1D714); (0x1D716, 0x1D734); (0x1D736, 0x1D74E); (0x1D750, 0x1D76E); (0x1D770, 0x1D788); (0x1D78A, 0x1D7A8);
   (0x1D7AA, 0x1D7C2); (0x1D7C4, 0x1D7CB); (0x1D7CE, 0x1D7FF); (0x1DF00, 0x1DF1E); (0x1E100, 0x1E12C); (0x1E137, 0x1E13D);
   (0x1E140, 0x1E149); (0x1E14E, 0x1E14E); (0x1E290, 0x1E2AD); (0x1E2C0, 0x1E2EB); (0x1E2F0, 0x1E2F9); (0x1E7E0, 0x1E7E6);
   (0x1E7E8, 0x1E7EB); (0x1E7ED, 0x1E7EE); (0x1E7F0, 0x1E7FE); (0x1E800, 0x1E8C4); (0x1E8C7, 0x1E8CF); (0x1E900, 0x1E943);
   (0x1E94B, 0x1E94B); (0x1E950, 0x1E959); (0x1EC71, 0x1ECAB); (0x1ECAD, 0x1ECAF); (0x1ECB1, 0x1ECB4); (0x1ED01, 0x1ED2D);
   (0x1ED2F, 0x1ED3D); (0x1EE00, 0x1EE03); (0x1EE05, 0x1EE1F); (0x1EE21, 0x1EE22); (0x1EE24, 0x1EE24); (0x1EE27, 0x1EE27);
   (0x1EE29, 0x1EE32); (0x1EE34, 0x1EE37); (0x1EE39, 0x1EE39); (0x1EE3B, 0x1EE3B); (0x1EE42, 0x1EE42); (0x1EE47, 0x1EE47);
   (0x1EE49, 0x1EE49); (0x1EE4B, 0x1EE4B); (0x1EE4D, 0x1EE4F); (0x1EE51, 0x1EE52); (0x1EE54, 0x1EE54); (0x1EE57, 0x1EE57);
   (0x1EE59, 0x1EE59); (0x1EE5B, 0x1EE5B); (0x1EE5D, 0x1EE5D); (0x1EE5F, 0x1EE5F); (0x1EE61, 0x1EE62); (0x1EE64, 0x1EE64);
   (0x1EE67, 0x1EE6A); (0x1EE6C, 0x1EE72); (0x1EE74, 0x1EE77); (0x1EE79, 0x1EE7C); (0x1EE7E, 0x1EE7E); (0x1EE80, 0x1EE89);
   (0x1EE8B, 0x1EE9B); (0x1EEA1, 0x1EEA3); (0x1EEA5, 0x1EEA9); (0x1EEAB, 0x1EEBB); (0x1F100, 0x1F10C); (0x1FBF0, 0x1FBF9);
   (0x20000, 0x2A6DF); (0x2A700, 0x2B738); (0x2B740, 0x2B81D); (0x2B820, 0x2CEA1); (0x2CEB0, 0x2EBE0); (0x2F800, 0x2FA1D);
   (0x30000, 0x3134A)
  ]%N.

(** [\d] in a [str] pattern compiled without [re.ASCII]. *)
Definition isdecimal (c : char) : bool := in_ranges decimal_table c.
(** [c.isspace()]. *)
Definition isspace (c : char) : bool := in_ranges space_table c.
(** [c.isdigit()]. *)
Definition isdigit (c : char) : bool := in_ranges digit_table c.
(** [c.isalnum()]. *)
Definition isalnum (c : char) : bool := in_ranges alnum_table c.

(** The ten ASCII digits [0-9], the class the design contract names. *)
Definition is_ascii_digit (c : char) : bool := (0x30 <=? c)%N && (c <=? 0x39)%N.

End Unicode.

(** ** Builtins *)

Module Py.
Import Unicode.

Definition str := list char.

(** A literal of the source text, for ASCII literals. *)
Definition u (s : string) : str := map N_of_ascii (list_ascii_of_string s).

Inductive exn := IndexError | ValueError.

(** The outcome of evaluating an expression: a value or a raised exception. *)
Inductive res (A : Type) :=
| Ok (a : A)
| Raise (e : exn).
Arguments Ok {A} a.
Arguments Raise {A} e.

Definition bind {A B} (m : res A) (k : A -> res B) : res B :=
  match m with
  | Ok a => k a
  | Raise e => Raise e
  end.

Notation "'let*' x := m 'in' k" := (bind m (fun x => k))
  (at level 10, x name, m at level 100, k at level 200).

(** *** str methods *)

Fixpoint lstrip (s : str) : str :=
  match s with
  | c :: s' => if isspace c then lstrip s' else s
  | [] => []
  end.
Definition rstrip (s : str) : str := reverse (lstrip (reverse s)).
(** [s.strip()] *)
Definition strip (s : str) : str := rstrip (lstrip s).

(** [s.isdigit()]: at least one character and all of them digits. *)
Definition str_isdigit (s : str) : bool :=
  negb (bool_decide (s = [])) && forallb isdigit s.
(** [s.isalnum()]: at least one character and all of them alphanumeric. *)
Definition str_isalnum (s : str) : bool :=
  negb (bool_decide (s = [])) && forallb isalnum s.

(** [sep.join(parts)] *)
Fixpoint join (sep : str) (parts : list str) : str :=
  match parts with
  | [] => []
  | [p] => p
  | p :: rest => p ++ sep ++ join sep rest
  end.

Fixpoint uint_digits (d : Decimal.uint) : str :=
  match d with
  | Nil => []
  | D0 d => 0x30%N :: uint_digits d
  | D1 d => 0x31%N :: uint_digits d
  | D2 d => 0x32%N :: uint_digits d
  | D3 d => 0x33%N :: uint_digits d
  | D4 d => 0x34%N :: uint_digits d
  | D5 d => 0x35%N :: uint_digits d
  | D6 d => 0x36%N :: uint_digits d
  | D7 d => 0x37%N :: uint_digits d
  | D8 d => 0x38%N :: uint_digits d
  | D9 d => 0x39%N :: uint_digits d
  end.
(** [f"{n}"] for a length [n]. *)
Definition format_nat (n : nat) : str := uint_digits (Nat.to_uint n).

(** [a < b] on strings: code point by code point, a proper prefix first. *)
Fixpoint str_ltb (a b : str) : bool :=
  match a, b with
  | _, [] => false
  | [], _ :: _ => true
  | x :: a', y :: b' => (x <? y)%N || ((x =? y)%N && str_ltb a' b')
  end.
(** [not (b < a)], the order [sorted] leaves adjacent items in. *)
Definition str_le (a b : str) : Prop := str_ltb b a = false.
#[global] Instance str_le_dec : RelDecision str_le :=
  fun a b => decide (str_ltb b a = false).

(** *** max, sorted, set, indexing *)

Fixpoint max_from (best : str) (items : list str) : str :=
  match items with
  | [] => best
  | x :: rest => max_from (if length best <? length x then x else best) rest
  end.
(** [max(items, key=lambda x: len(x))]: the running maximum is replaced only
    by a strictly longer item; the empty sequence raises. *)
Definition max_by_len (items : list str) : res str :=
  match items with
  | [] => Raise ValueError
  | x :: rest => Ok (max_from x rest)
  end.

(** [sorted(xs)].  The items sorted here are strings, and two strings that
    compare equal are the same string, so that the order among equal items
    does not show. *)
Definition sorted (xs : list str) : list str := merge_sort str_le xs.

(** A [set] of strings, as the list of its elements in the order they were
    first added.  The interpreter iterates a set in an order of its own;
    the program only takes [len] of a set or sorts it, and sorting gives
    the same list whatever that order is ([sorted_order_independent]). *)
Definition pyset := list str.
Definition set_add (x : str) (s : pyset) : pyset :=
  if bool_decide (x ∈ s) then s else s ++ [x].
(** [set(xs)] *)
Definition set_of (xs : list str) : pyset :=
  foldl (fun s x => set_add x s) [] xs.

(** [xs[i]] for [i >= 0] *)
Definition index {A} (xs : list A) (i : nat) : res A :=
  match xs !! i with
  | Some x => Ok x
  | None => Raise IndexError
  end.

End Py.

(** ** Regular expressions *)

Module Re.
Import Unicode Py.

(** What the greedy [\d+] consumes at the start of [s]: its longest prefix
    of decimal digits. *)
Fixpoint digit_prefix (s : str) : str :=
  match s with
  | c :: s' => if isdecimal c then c :: digit_prefix s' else []
  | [] => []
  end.

(** The scan of [re.findall(r'\d+', s)].  A match starts at a decimal digit
    that no earlier match consumed and takes [digit_prefix] of the rest;
    [inside] tells that the character before [s] was consumed by a match, so
    that the digits leading [s] belong to it. *)
Fixpoint findall_scan (inside : bool) (s : str) : list str :=
  match s with
  | [] => []
  | c :: s' =>
      if isdecimal c then
        if inside then findall_scan true s'
        else digit_prefix s :: findall_scan true s'
      else findall_scan false s'
  end.

(** [re.findall(r'\d+', s)] *)
Definition findall_digits (s : str) : list str := findall_scan false s.

Fixpoint starts_with (lit s : str) : bool :=
  match lit, s with
  | [], _ => true
  | x :: lit', y :: s' => (x =? y)%N && starts_with lit' s'
  | _ :: _, [] => false
  end.

(** The scan of [re.sub] for a non-empty literal: at a position where the
    literal starts, the replacement is emitted and the characters of the
    match are skipped ([skip] counts those still to pass); elsewhere the
    character is copied. *)
Fixpoint sub_scan (lit repl : str) (skip : nat) (s : str) : str :=
  match s with
  | [] => []
  | c :: s' =>
      match skip with
      | S k => sub_scan lit repl k s'
      | O =>
          if starts_with lit s
          then repl ++ sub_scan lit repl (length lit - 1) s'
          else c :: sub_scan lit repl 0 s'
      end
  end.

(** [re.sub(re.escape(lit), repl, s)] for a replacement without backslash:
    the escaped pattern matches [lit] literally, and every match found from
    left to right is replaced.  The empty pattern matches before each
    character and at the end. *)
Definition sub_escaped (lit repl s : str) : str :=
  match lit with
  | [] => repl ++ flat_map (fun c => c :: repl) s
  | _ :: _ => sub_scan lit repl 0 s
  end.

End Re.

(** ** The analyzer *)

Module Telanlys.
Import Unicode Py Re.

Definition MIN_OCCURRENCES : nat := 3.

(** The placeholder written in place of the identifier. *)
Definition ID : str := u "<ID>".

(** The dict [{'pattern': ..., 'identifiers': ...}]. *)
Record pattern_data := { pattern : str; identifiers : list str }.

(** The body of the loop of [analyze_messages] for one message: [None] is
    the early [return None], otherwise the identifier and the stripped
    pattern that the loop appends to its two lists. *)
Definition extract (msg : str) : res (option (str * str)) :=
  let numbers := findall_digits msg in
  if bool_decide (numbers = []) then Ok None
  else
    let* identifier := max_by_len numbers in
    let pattern := sub_escaped identifier ID msg in
    Ok (Some (identifier, strip pattern)).

(** The loop, with the lists [patterns] and [identifiers] it grows. *)
Fixpoint analyze_loop (messages : list str) (patterns identifiers : list str)
  : res (option (list str * list str)) :=
  match messages with
  | [] => Ok (Some (patterns, identifiers))
  | msg :: rest =>
      let* r := extract msg in
      match r with
      | None => Ok None
      | Some (identifier, pattern) =>
          analyze_loop rest (patterns ++ [pattern]) (identifiers ++ [identifier])
      end
  end.

(** [analyze_messages(messages)].  The conditional expression of the last
    line evaluates its test first and [patterns[0]] only when it holds. *)
Definition analyze_messages (messages : list str) : res (option pattern_data) :=
  let* r := analyze_loop messages [] [] in
  match r with
  | None => Ok None
  | Some (patterns, identifiers) =>
      if length (set_of patterns) =? 1 then
        let* p0 := index patterns 0 in
        Ok (Some {| pattern := p0; identifiers := identifiers |})
      else Ok None
  end.

(** The loop of [get_identifier_type], with the set [formats] it fills. *)
Fixpoint formats_loop (identifiers : list str) (formats : pyset) : pyset :=
  match identifiers with
  | [] => formats
  | id :: rest =>
      formats_loop rest
        (if str_isdigit id then
           set_add (format_nat (length id) ++ u "-digit numeric") formats
         else if str_isalnum id then
           set_add (format_nat (length id) ++ u "-digit alphanumeric") formats
         else set_add (u "mixed formats") formats)
  end.

(** [get_identifier_type(identifiers)] *)
Definition get_identifier_type (identifiers : list str) : str :=
  join (u " | ") (sorted (formats_loop identifiers [])).

(** A row of the traffic table, each cell as [astype(str)] gives it. *)
Record row := {
  client_name : str;
  destination_number : str;
  content : str;
  sender_id : str
}.

Section Candidates.
(** [str.lower], the case mapping of the character database. *)
Variable lower : str -> str.

(** [set(tags_df["Tag values"].astype(str).str.strip().str.lower())] *)
Definition known_numbers (tags : list str) : gset str :=
  list_to_set (map (fun t => lower (strip t)) tags).

(** [Series.value_counts()]: each distinct value with the number of rows
    holding it.  The library lists the values by falling count and leaves
    the order among equal counts open; that order is not modelled, the map
    hands its keys over in an order of its own. *)
Definition value_counts (column : list str) : gmap str nat :=
  foldr (fun v counts => <[v := S (default 0 (counts !! v))]> counts) ∅ column.

(** The two assignments to [candidates] in [main].  The list has the
    numbers [main] has, in the order of the map instead of that of
    [value_counts]. *)
Definition candidates (traffic : list row) (tags : list str) : list str :=
  let counts :=
    value_counts (map (fun r => lower (destination_number r)) traffic) in
  let frequent :=
    map fst (filter (fun kv => MIN_OCCURRENCES <= snd kv) (map_to_list counts)) in
  filter (fun num => num ∉ known_numbers tags) frequent.

(** [traffic_df[traffic_df["Destination Number"].astype(str).str.lower() == number]] *)
Definition records_of (traffic : list row) (number : str) : list row :=
  filter (fun r => lower (destination_number r) = number) traffic.

(** The calls of [analyze_messages] made by the loop over the candidates:
    the number and the messages handed over. *)
Definition classifier_calls (traffic : list row) (tags : list str)
  : list (str * list str) :=
  map (fun number => (number, map content (records_of traffic number)))
      (candidates traffic tags).
End Candidates.

End Telanlys.

(** ** The vocabulary of the design contract *)

Module Contract.
Import Unicode Py Re Telanlys.

(** [r] is a maximal run of characters of class [P] in [msg], between [pre]
    and [post]. *)
Definition maximal_run (P : char -> bool) (msg pre r post : str) : Prop :=
  msg = pre ++ r ++ post /\ r <> [] /\ forallb P r = true /\
  (forall c, last pre = Some c -> P c = false) /\
  (forall c, head post = Some c -> P c = false).

Definition has_run (P : char -> bool) (msg : str) : Prop :=
  exists pre r post, maximal_run P msg pre r post.

(** [id] is a run of greatest length, and the leftmost of that length. *)
Definition leftmost_longest (P : char -> bool) (msg id : str) : Prop :=
  exists pre post,
    maximal_run P msg pre id post /\
    forall pre' r post',
      maximal_run P msg pre' r post' ->
      length r <= length id /\ (length r = length id -> length pre <= length pre').

(** The number of positions of [s] at which [lit] starts. *)
Fixpoint occurrences (lit s : str) : nat :=
  match s with
  | [] => 0
  | _ :: s' => (if starts_with lit s then 1 else 0) + occurrences lit s'
  end.

(** The contract's template step: only the first occurrence is replaced. *)
Fixpoint replace_first (lit repl s : str) : str :=
  match s with
  | [] => []
  | c :: s' =>
      if starts_with lit s then repl ++ drop (length lit) s
      else c :: replace_first lit repl s'
  end.

(** [out] is [s] with every occurrence of [lit] met from left to right
    replaced by [repl], the search resuming after each replaced occurrence. *)
Inductive replaced_all (lit repl : str) : str -> str -> Prop :=
| replaced_end : replaced_all lit repl [] []
| replaced_here post out :
    replaced_all lit repl post out ->
    replaced_all lit repl (lit ++ post) (repl ++ out)
| replaced_later c s out :
    starts_with lit (c :: s) = false ->
    replaced_all lit repl s out ->
    replaced_all lit repl (c :: s) (c :: out).

(** The bucket label as the contract words it. *)
Definition label_as_stated (id : str) : str :=
  if forallb isdigit id then format_nat (length id) ++ u "-digit numeric"
  else if forallb isalnum id then format_nat (length id) ++ u "-digit alphanumeric"
  else u "mixed formats".

(** The bucket label with the empty identifier set apart. *)
Definition label (id : str) : str :=
  if bool_decide (id <> []) && forallb isdigit id
  then format_nat (length id) ++ u "-digit numeric"
  else if bool_decide (id <> []) && forallb isalnum id
  then format_nat (length id) ++ u "-digit alphanumeric"
  else u "mixed formats".

(** [out] is the distinct labels of [ids] in increasing lexicographic order,
    joined with [" | "]. *)
Definition summary_of (lbl : str -> str) (ids : list str) (out : str) : Prop :=
  exists labels : list str,
    Sorted lexico labels /\
    (forall x, x ∈ labels <-> exists id, id ∈ ids /\ x = lbl id) /\
    out = join (u " | ") labels.

(** All the templates of a group are the same string. *)
Definition all_same (ts : list str) : Prop :=
  forall a b, a ∈ ts -> b ∈ ts -> a = b.

(** The end-to-end sample: a number with three rows, one with a single row,
    and a tags table that names neither. *)
Definition sample_traffic : list row :=
  [ {| client_name := u "acme"; destination_number := u "5000";
       content := u "Your code is 9081"; sender_id := u "S1" |};
    {| client_name := u "acme"; destination_number := u "5000";
       content := u "Your code is 1234"; sender_id := u "S1" |};
    {| client_name := u "bolt"; destination_number := u "5000";
       content := u "Your code is 5567"; sender_id := u "S2" |};
    {| client_name := u "bolt"; destination_number := u "6000";
       content := u "hello"; sender_id := u "S2" |} ].
Definition sample_tags : list str := [u " 7000 "].

(** A traffic table whose destination number is padded with spaces, and a
    tags table that lists that number as it stands. *)
Definition padded_traffic : list row :=
  [ {| client_name := u "acme"; destination_number := u " 5000 ";
       content := u "Your code is 9081"; sender_id := u "S1" |};
    {| client_name := u "acme"; destination_number := u " 5000 ";
       content := u "Your code is 1234"; sender_id := u "S1" |};
    {| client_name := u "bolt"; destination_number := u " 5000 ";
       content := u "Your code is 5567"; sender_id := u "S2" |} ].
Definition padded_tags : list str := [u " 5000 "].

End Contract.

(** ** Validation and the detailed table of [main] *)

Module Main.
Import Unicode Py Re Telanlys.

(** The list [required] of [validate_traffic_file]. *)
Definition required : list str :=
  [u "Client Name"; u "Destination Number"; u "Content"; u "Sender ID"].

(** [validate_traffic_file(df)], from the column labels [df.columns]. *)
Definition validate_traffic_file (columns : list str) : list str :=
  filter (fun col => col ∉ columns) required.

(** [validate_tags_file(df)] *)
Definition validate_tags_file (columns : list str) : bool :=
  bool_decide (u "Tag values" ∉ columns).

(** The validation of [main]: the message of the [ValueError] it raises, or
    [None] when it goes on.  A list is true in a test when it is not
    empty. *)
Definition validation_error (traffic_columns tags_columns : list str)
  : option str :=
  let missing_traffic := validate_traffic_file traffic_columns in
  let missing_tags := validate_tags_file tags_columns in
  if negb (bool_decide (missing_traffic = [])) || missing_tags then
    let error_msg :=
      if negb (bool_decide (missing_traffic = []))
      then [u "Missing columns in traffic file: " ++ join (u ", ") missing_traffic]
      else [] in
    let error_msg :=
      if missing_tags
      then error_msg ++ [u "Tags file missing 'Tag values' column"]
      else error_msg in
    Some (join [0xA%N] error_msg)
  else None.

Section Detailed.
(** [str.lower], as in [Telanlys.candidates]. *)
Variable lower : str -> str.
(** The cells of the tables, and what [astype(str)] makes of a cell.
    Every cell is taken to get a string, as with pandas before 3.0, where
    an empty cell becomes ["nan"].  From pandas 3.0 on an empty cell stays
    missing: [value_counts] then leaves it out and [re.findall] raises
    [TypeError] on it; such tables are outside this model. *)
Variable cell : Type.
Variable astype_str : cell -> str.

(** A row of the traffic table as read: the cells of the four required
    columns, which [main] reads once the validation has found them. *)
Record traffic_row := {
  t_client : cell;
  t_destination : cell;
  t_content : cell;
  t_sender : cell
}.

(** The dict appended to [detailed_results]. *)
Record detailed_row := {
  d_client : cell;
  d_destination : cell;
  d_content : cell;
  d_sender : cell;
  d_count : nat;
  d_pattern : str;
  d_identifier : str
}.

(** The row with the cells that candidate selection compares. *)
Definition as_str (r : traffic_row) : row :=
  {| client_name := astype_str (t_client r);
     destination_number := astype_str (t_destination r);
     content := astype_str (t_content r);
     sender_id := astype_str (t_sender r) |}.

(** [traffic_df[traffic_df["Destination Number"].astype(str).str.lower() == number]] *)
Definition records_for (traffic : list traffic_row) (number : str)
  : list traffic_row :=
  filter (fun r => lower (astype_str (t_destination r)) = number) traffic.

(** The loop over [enumerate(records.iterrows())], from index [idx] on;
    [count] is [len(records)]. *)
Fixpoint detail_rows (rows : list traffic_row) (idx count : nat)
    (pattern_data : pattern_data) : res (list detailed_row) :=
  match rows with
  | [] => Ok []
  | r :: rest =>
      let* identifier := index (identifiers pattern_data) idx in
      let* more := detail_rows rest (S idx) count pattern_data in
      Ok ({| d_client := t_client r;
             d_destination := t_destination r;
             d_content := t_content r;
             d_sender := t_sender r;
             d_count := count;
             d_pattern := pattern pattern_data;
             d_identifier := identifier |} :: more)
  end.

(** One pass of the loop over the candidates: the rows it appends.  A dict
    with two keys is true in a test, [None] is false. *)
Definition detailed_for (traffic : list traffic_row) (number : str)
  : res (list detailed_row) :=
  let records := records_for traffic number in
  let messages := map (fun r => astype_str (t_content r)) records in
  let* pattern_data := analyze_messages messages in
  match pattern_data with
  | Some pd =>
      if length (identifiers pd) =? length messages
      then detail_rows records 0 (length records) pd
      else Ok []
  | None => Ok []
  end.

(** The loop over the candidates, with the list [detailed_results] it
    grows. *)
Fixpoint detailed_loop (traffic : list traffic_row) (numbers : list str)
    (detailed_results : list detailed_row) : res (list detailed_row) :=
  match numbers with
  | [] => Ok detailed_results
  | number :: rest =>
      let* rows := detailed_for traffic number in
      detailed_loop traffic rest (detailed_results ++ rows)
  end.

(** [detailed_results] as [main] has it when the loop ends, up to the order
    in which the candidates are taken; [main] prints "No testing patterns
    found" and returns when it is empty. *)
Definition detailed_results (traffic : list traffic_row) (tags : list cell)
  : res (list detailed_row) :=
  detailed_loop traffic
    (candidates lower (map as_str traffic) (map astype_str tags)) [].

(** The number under which a row is counted and selected. *)
Definition number_of (r : traffic_row) : str :=
  lower (astype_str (t_destination r)).

(** The messages [main] hands to [analyze_messages] for a number. *)
Definition messages_for (traffic : list traffic_row) (number : str) : list str :=
  map (fun r => astype_str (t_content r)) (records_for traffic number).

(** [d] is the detailed row of the traffic row [r]: it has the four cells
    of [r], the occurrence count [count], and the identifier and pattern
    that the loop body of [analyze_messages] gives the content of [r]. *)
Definition detailed_from (r : traffic_row) (count : nat) (d : detailed_row)
  : Prop :=
  d_client d = t_client r /\ d_destination d = t_destination r /\
  d_content d = t_content r /\ d_sender d = t_sender r /\
  d_count d = count /\
  extract (astype_str (t_content r)) = Ok (Some (d_identifier d, d_pattern d)).

End Detailed.

Arguments t_client {cell} _.
Arguments t_destination {cell} _.
Arguments t_content {cell} _.
Arguments t_sender {cell} _.
Arguments d_client {cell} _.
Arguments d_destination {cell} _.
Arguments d_content {cell} _.
Arguments d_sender {cell} _.
Arguments d_count {cell} _.
Arguments d_pattern {cell} _.
Arguments d_identifier {cell} _.
Arguments number_of lower {cell} astype_str r.
Arguments messages_for lower {cell} astype_str traffic number.
Arguments detailed_from {cell} astype_str r count d.

(** The rows of [Contract.sample_traffic] as a table of string cells. *)
Definition sample_rows : list (traffic_row str) :=
  map (fun r => {| t_client := client_name r;
                   t_destination := destination_number r;
                   t_content := content r;
                   t_sender := sender_id r |}) Contract.sample_traffic.

End Main.

(** * Properties *)

Import Unicode Py Re Telanlys Contract.

(** ** The order on strings *)

(** Python's [<] on strings is the lexicographic order on code points. *)
Lemma str_ltb_lexico (a b : str) : str_ltb a b = true <-> lexico a b.
Proof.
  revert b; induction a as [|x a IH]; intros [|y b]; simpl; try done.
  rewrite orb_true_iff, andb_true_iff, N.ltb_lt, N.eqb_eq, IH.
  change (lexico (x :: a) (y :: b)) with (lexico x y \/ x = y /\ lexico a b).
  done.
Qed.

Lemma str_le_lexico (a b : str) : str_le a b <-> ~ lexico b a.
Proof.
  unfold str_le. rewrite <- str_ltb_lexico. destruct (str_ltb b a); naive_solver.
Qed.

#[global] Instance str_le_total : Total str_le.
Proof.
  intros a b. rewrite !str_le_lexico.
  destruct (trichotomy lexico a b) as [H|[->|H]].
  - left. intros H'. by apply (irreflexivity lexico a); trans b.
  - left. apply irreflexivity, _.
  - right. intros H'. by apply (irreflexivity lexico a); trans b.
Qed.

#[global] Instance str_le_trans : Transitive str_le.
Proof.
  intros a b c. rewrite !str_le_lexico. intros Hba Hcb Hca.
  destruct (trichotomy lexico a b) as [H|[->|H]]; [|done..].
  apply Hcb. by trans a.
Qed.

#[global] Instance str_le_antisymm : AntiSymm (=) str_le.
Proof.
  intros a b. rewrite !str_le_lexico. intros Hba Hab.
  by destruct (trichotomy lexico a b) as [H|[->|H]].
Qed.

(** ** Sets *)

Lemma elem_of_set_add (x y : str) (s : pyset) :
  y ∈ set_add x s <-> y = x \/ y ∈ s.
Proof.
  unfold set_add. case_bool_decide as Hx.
  - naive_solver.
  - rewrite elem_of_app, list_elem_of_singleton. naive_solver.
Qed.

Lemma NoDup_set_add (x : str) (s : pyset) : NoDup s -> NoDup (set_add x s).
Proof.
  intros Hs. unfold set_add. case_bool_decide as Hx; [done|].
  apply NoDup_app. split_and!; [done| |apply NoDup_singleton].
  intros y Hy ->%list_elem_of_singleton. done.
Qed.

Lemma elem_of_set_of_from (xs : list str) (s : pyset) (y : str) :
  y ∈ foldl (fun s x => set_add x s) s xs <-> y ∈ s \/ y ∈ xs.
Proof.
  revert s; induction xs as [|x xs IH]; intros s; simpl.
  - rewrite elem_of_nil. naive_solver.
  - rewrite IH, elem_of_set_add, elem_of_cons. naive_solver.
Qed.

Lemma elem_of_set_of (xs : list str) (y : str) : y ∈ set_of xs <-> y ∈ xs.
Proof.
  unfold set_of. rewrite elem_of_set_of_from, elem_of_nil. naive_solver.
Qed.

Lemma NoDup_set_of (xs : list str) : NoDup (set_of xs).
Proof.
  unfold set_of. generalize (NoDup_nil_2 (A := str)). generalize (@nil str).
  induction xs as [|x xs IH]; intros s Hs; simpl; [done|].
  by apply IH, NoDup_set_add.
Qed.

(** A set built from a list has one element exactly when the list is not
    empty and all its items are equal. *)
Lemma set_of_singleton (xs : list str) :
  length (set_of xs) = 1 <-> xs <> [] /\ all_same xs.
Proof.
  pose proof (NoDup_set_of xs) as Hnd.
  pose proof (elem_of_set_of xs) as Hel.
  split.
  - destruct (set_of xs) as [|t [|??]] eqn:E; try done. intros _.
    split.
    + intros ->. specialize (Hel t). rewrite list_elem_of_singleton in Hel.
      apply (elem_of_nil t). naive_solver.
    + intros a b Ha%Hel Hb%Hel.
      apply list_elem_of_singleton in Ha, Hb. congruence.
  - intros [Hne Hsame]. destruct xs as [|x0 xs']; [done|].
    destruct (set_of (x0 :: xs')) as [|a [|b l]] eqn:E; [|done|].
    + exfalso. apply (elem_of_nil x0), Hel. left.
    + exfalso. apply NoDup_cons in Hnd as [Hab _]. apply Hab.
      assert (a = b) as ->; [|left].
      apply Hsame; apply Hel; [left | right; left].
Qed.

(** ** Digit runs *)

Lemma digit_prefix_digits (s : str) : forallb isdecimal (digit_prefix s) = true.
Proof.
  induction s as [|c s IH]; simpl; [done|].
  destruct (isdecimal c) eqn:Hc; simpl; [by rewrite Hc|done].
Qed.

Lemma digit_prefix_split (s : str) :
  exists post, s = digit_prefix s ++ post /\
               forall c, head post = Some c -> isdecimal c = false.
Proof.
  induction s as [|c s (post & Hs & Hpost)]; simpl.
  - exists []. done.
  - destruct (isdecimal c) eqn:Hc.
    + exists post. split; [simpl; by f_equal|done].
    + exists (c :: s). split; [done|]. by intros ? [= <-].
Qed.

Lemma digit_prefix_covers (d rest : str) :
  forallb isdecimal d = true -> length d <= length (digit_prefix (d ++ rest)).
Proof.
  induction d as [|c d IH]; simpl; [lia|].
  intros [Hc Hd]%andb_true_iff. rewrite Hc. simpl. specialize (IH Hd). lia.
Qed.

Lemma digit_prefix_stops (pre t : str) (z : char) :
  last pre = Some z -> isdecimal z = false ->
  digit_prefix (pre ++ t) = digit_prefix pre.
Proof.
  induction pre as [|c pre IH]; [done|]. intros Hlast Hz.
  destruct pre as [|c' pre'].
  - simpl in *. injection Hlast as ->. by rewrite Hz.
  - simpl. destruct (isdecimal c); [|done]. f_equal. by apply IH.
Qed.

(** Digits leading a string that an earlier match consumed are passed over. *)
Lemma findall_scan_inside (d rest : str) :
  forallb isdecimal d = true ->
  (forall c, head rest = Some c -> isdecimal c = false) ->
  findall_scan true (d ++ rest) = findall_digits rest.
Proof.
  intros Hd Hrest. induction d as [|c d IH]; simpl.
  - destruct rest as [|c r]; [done|]. unfold findall_digits. simpl.
    by rewrite (Hrest c).
  - simpl in Hd. apply andb_true_iff in Hd as [Hc Hd]. rewrite Hc. by apply IH.
Qed.

(** The list-level reading of [max]: the result is the first item that no
    item exceeds in length. *)
Lemma max_from_first_longest (x : str) (l : list str) :
  exists l1 l2,
    x :: l = l1 ++ max_from x l :: l2 /\
    (forall z, z ∈ l1 -> length z < length (max_from x l)) /\
    (forall z, z ∈ l2 -> length z <= length (max_from x l)).
Proof.
  revert x; induction l as [|a l IH]; intros x; simpl.
  - exists [], []. split_and!; [done|intros ? []%elem_of_nil..].
  - destruct (length x <? length a) eqn:Hlt.
    + apply Nat.ltb_lt in Hlt.
      destruct (IH a) as (l1 & l2 & Heq & H1 & H2).
      exists (x :: l1), l2. split_and!; [simpl; by f_equal| |done].
      intros z [->|Hz]%elem_of_cons; [|by apply H1].
      assert (a ∈ l1 ++ max_from a l :: l2) as Ha by (rewrite <- Heq; left).
      apply elem_of_app in Ha as [Ha|Ha]; [apply H1 in Ha; lia|].
      apply elem_of_cons in Ha as [Ha|Ha]; [rewrite <- Ha; lia|].
      apply H2 in Ha. lia.
    + apply Nat.ltb_ge in Hlt.
      destruct (IH x) as (l1 & l2 & Heq & H1 & H2).
      destruct l1 as [|x' l1]; simpl in Heq; injection Heq as Hx Hl.
      * subst l2. exists [], (a :: l). split_and!.
        -- simpl. by rewrite <- Hx.
        -- intros ? []%elem_of_nil.
        -- intros z [->|Hz]%elem_of_cons; [rewrite <- Hx; lia|by apply H2].
      * subst x'. exists (x :: a :: l1), l2. split_and!.
        -- simpl. by do 2 f_equal.
        -- assert (length x < length (max_from x l)) by (apply H1; left).
           intros z [->|[->|Hz]%elem_of_cons]%elem_of_cons; [done|lia|].
           apply H1. by right.
        -- done.
Qed.

(** Every stretch of decimal digits of the message lies inside one of the
    matches, or inside the digits an earlier match consumed. *)
Lemma findall_scan_covers (b : bool) (pre r post : str) :
  r <> [] -> forallb isdecimal r = true ->
  (exists x, x ∈ findall_scan b (pre ++ r ++ post) /\ length r <= length x) \/
  (b = true /\ forallb isdecimal (pre ++ r) = true).
Proof.
  intros Hne Hr. revert b; induction pre as [|c pre IH]; intros b.
  - destruct r as [|c r]; [done|]. simpl in *.
    destruct (andb_prop _ _ Hr) as [Hc Hr']. rewrite Hc.
    destruct b; [by right|]. left. eexists; split; [left|].
    pose proof (digit_prefix_covers r post Hr'). simpl. lia.
  - simpl. destruct (isdecimal c) eqn:Hc.
    + destruct b.
      * destruct (IH true) as [(x & Hx & Hlen)|[_ Hall]]; [left; eauto|by right].
      * left. destruct (IH true) as [(x & Hx & Hlen)|[_ Hall]].
        -- exists x. split; [by right|done].
        -- eexists; split; [left|].
           pose proof (digit_prefix_covers (pre ++ r) post Hall) as Hcov.
           rewrite <- (assoc_L (++)) in Hcov. rewrite length_app in Hcov.
           simpl. lia.
    + destruct (IH false) as [(x & Hx & Hlen)|[? _]]; [left; eauto|done].
Qed.

Lemma maximal_run_cons (P : char -> bool) (c : char) (s pre y post : str) :
  maximal_run P s pre y post ->
  (pre = [] -> P c = false) ->
  maximal_run P (c :: s) (c :: pre) y post.
Proof.
  intros (Hs & Hy & Hdig & Hpre & Hpost) Hc. unfold maximal_run.
  split_and!; try done.
  - simpl. by rewrite Hs.
  - intros z. destruct pre as [|c' pre']; [|apply Hpre].
    intros [= <-]. by apply Hc.
Qed.

(** Each match is a maximal run of the message, and the matches before it
    are those of the text before it. *)
Lemma findall_scan_locate (b : bool) (s : str) (l1 l2 : list str) (y : str) :
  findall_scan b s = l1 ++ y :: l2 ->
  exists pre post,
    maximal_run isdecimal s pre y post /\
    (b = true -> pre <> []) /\
    findall_scan b pre = l1.
Proof.
  revert b l1; induction s as [|c s IH]; intros b l1; simpl.
  { by destruct l1. }
  destruct (isdecimal c) eqn:Hc; [destruct b|].
  - intros (pre & post & Hrun & Hne & Hl1)%IH.
    specialize (Hne eq_refl).
    exists (c :: pre), post. split_and!; [|done|].
    + by apply maximal_run_cons.
    + simpl. by rewrite Hc.
  - destruct l1 as [|x l1]; simpl; intros [= Hx Hl].
    + destruct (digit_prefix_split (c :: s)) as (post & Hsplit & Hpost).
      pose proof (digit_prefix_digits (c :: s)) as Hdig.
      simpl in Hsplit, Hdig. rewrite Hc, Hx in Hsplit, Hdig.
      exists [], post. split_and!; try done.
      unfold maximal_run. split_and!; try done.
      by rewrite <- Hx.
    + apply IH in Hl as (pre & post & Hrun & Hne & Hl1).
      specialize (Hne eq_refl).
      exists (c :: pre), post. split_and!; [|done|].
      * by apply maximal_run_cons.
      * destruct Hrun as (Hs & _ & _ & Hpre & _).
        simpl. rewrite Hc. f_equal; [|done].
        rewrite <- Hx, Hs.
        destruct (last pre) as [z|] eqn:Hlast; [|by apply last_None in Hlast].
        f_equal. symmetry. apply (digit_prefix_stops _ _ z); auto.
  - intros (pre & post & Hrun & _ & Hl1)%IH.
    exists (c :: pre), post. split_and!; [|done|].
    + by apply maximal_run_cons.
    + simpl. by rewrite Hc.
Qed.

Lemma findall_digits_nonempty (msg : str) :
  has_run isdecimal msg <-> findall_digits msg <> [].
Proof.
  split.
  - intros (pre & r & post & -> & Hne & Hdig & _).
    destruct (findall_scan_covers false pre r post Hne Hdig)
      as [(x & Hx & _)|[? _]]; [|done].
    unfold findall_digits. intros E. rewrite E in Hx. by apply elem_of_nil in Hx.
  - unfold findall_digits. destruct (findall_scan false msg) as [|y l] eqn:E; [done|].
    intros _. destruct (findall_scan_locate false msg [] l y E) as (pre & post & H & _).
    by exists pre, y, post.
Qed.

(** ** The loop body *)

Lemma extract_no_run (msg : str) :
  ~ has_run isdecimal msg -> extract msg = Ok None.
Proof.
  rewrite findall_digits_nonempty. intros Hnone. unfold extract.
  case_bool_decide; [done|]. by destruct Hnone.
Qed.

Lemma extract_run (msg : str) :
  has_run isdecimal msg ->
  exists id,
    extract msg = Ok (Some (id, strip (sub_escaped id ID msg))) /\
    leftmost_longest isdecimal msg id.
Proof.
  intros Hrun%findall_digits_nonempty. unfold extract.
  case_bool_decide as Hnil; [done|]. clear Hrun.
  destruct (findall_digits msg) as [|x l] eqn:Hfind; [done|]. simpl.
  destruct (max_from_first_longest x l) as (l1 & l2 & Hsplit & Hbefore & Hafter).
  set (id := max_from x l) in *. exists id. split; [done|].
  rewrite Hsplit in Hfind. unfold findall_digits in Hfind.
  destruct (findall_scan_locate _ _ _ _ _ Hfind) as (pre & post & Hid & _ & Hl1).
  exists pre, post. split; [done|].
  intros pre' r post' (Hmsg & Hr & Hdig & _ & _).
  assert (forall p q, msg = p ++ r ++ q ->
            exists z, z ∈ l1 ++ id :: l2 /\ length r <= length z) as Hcover.
  { intros p q ->.
    destruct (findall_scan_covers false p r q Hr Hdig) as [Hz|[? _]]; [|done].
    by rewrite Hfind in Hz. }
  assert (forall z, z ∈ l1 ++ id :: l2 -> length z <= length id) as Hmax.
  { intros z [Hz|[->|Hz]%elem_of_cons]%elem_of_app; [apply Hbefore in Hz; lia|done|].
    by apply Hafter. }
  split.
  - destruct (Hcover pre' post' Hmsg) as (z & Hz%Hmax & Hlen). lia.
  - intros Hsame. destruct (decide (length pre <= length pre')) as [|Hlt]; [done|].
    exfalso. destruct Hid as (Hmsg' & _ & _ & Hpre & _).
    rewrite Hmsg' in Hmsg. symmetry in Hmsg.
    apply app_eq_inv in Hmsg as [(k & -> & _)|(k & -> & Hk)].
    + rewrite length_app in Hlt. lia.
    + assert (k <> []) as Hk0.
      { intros ->. rewrite length_app in Hlt. simpl in Hlt. lia. }
      apply app_eq_inv in Hk as [(k' & Hk' & _)|(k' & -> & _)].
      * (* the run [id] would start inside [r] *)
        destruct (last k) as [z|] eqn:Hlast; [|by apply last_None in Hlast].
        assert (isdecimal z = false) as Hz.
        { apply Hpre. rewrite last_app, Hlast. done. }
        assert (z ∈ r) as Hzr.
        { apply last_Some in Hlast as (k0 & ->). set_solver. }
        rewrite forallb_forall in Hdig. apply list_elem_of_In, Hdig in Hzr. congruence.
      * (* [r] lies in the text before [id] *)
        destruct (findall_scan_covers false pre' r k' Hr Hdig)
          as [(z & Hz & Hlen)|[? _]]; [|done].
        rewrite Hl1 in Hz. apply Hbefore in Hz. lia.
Qed.

(** ** Substitution *)

Lemma starts_with_app (lit s : str) :
  starts_with lit s = true <-> exists rest, s = lit ++ rest.
Proof.
  revert s; induction lit as [|x lit IH]; intros s; simpl.
  - split; [by exists s|done].
  - destruct s as [|y s]; [split; [done|by intros (? & ?)]|].
    rewrite andb_true_iff, N.eqb_eq, IH. split.
    + intros (-> & rest & ->). by exists rest.
    + intros (rest & [= -> ->]). eauto.
Qed.

Lemma sub_scan_skip (lit repl x post : str) :
  sub_scan lit repl (length x) (x ++ post) = sub_scan lit repl 0 post.
Proof.
  induction x as [|c x IH]; simpl; [|done].
  by destruct post.
Qed.

Lemma sub_scan_here (lit repl post : str) :
  lit <> [] ->
  sub_scan lit repl 0 (lit ++ post) = repl ++ sub_scan lit repl 0 post.
Proof.
  destruct lit as [|c lit]; [done|]. intros _.
  assert (starts_with (c :: lit) ((c :: lit) ++ post) = true) as Hs
    by (apply starts_with_app; eauto).
  change (sub_scan (c :: lit) repl 0 ((c :: lit) ++ post)) with
    (if starts_with (c :: lit) ((c :: lit) ++ post)
     then repl ++ sub_scan (c :: lit) repl (length (c :: lit) - 1) (lit ++ post)
     else c :: sub_scan (c :: lit) repl 0 (lit ++ post)).
  rewrite Hs. replace (length (c :: lit) - 1) with (length lit) by (simpl; lia).
  by rewrite sub_scan_skip.
Qed.

Lemma sub_scan_later (lit repl : str) (c : char) (s : str) :
  starts_with lit (c :: s) = false ->
  sub_scan lit repl 0 (c :: s) = c :: sub_scan lit repl 0 s.
Proof. intros Hs. simpl sub_scan. by rewrite Hs. Qed.

(** The scan replaces every occurrence met from left to right. *)
Lemma sub_scan_replaced_all (lit repl s : str) :
  lit <> [] -> replaced_all lit repl s (sub_scan lit repl 0 s).
Proof.
  intros Hlit. remember (length s) as n eqn:Hn. revert s Hn.
  induction (lt_wf n) as [n _ IH]. intros s ->.
  destruct s as [|c s]; [constructor|].
  destruct (starts_with lit (c :: s)) eqn:Hs.
  - apply starts_with_app in Hs as (post & Hs). rewrite Hs.
    rewrite sub_scan_here by done. constructor.
    apply (IH (length post)); [|done].
    apply (f_equal length) in Hs. rewrite length_app in Hs.
    destruct lit; [done|]. simpl in Hs |- *. lia.
  - rewrite sub_scan_later by done. constructor; [done|].
    apply (IH (length s)); [simpl; lia|done].
Qed.

(** The relation leaves one result only. *)
Lemma replaced_all_unique (lit repl s out : str) :
  lit <> [] -> replaced_all lit repl s out -> out = sub_scan lit repl 0 s.
Proof.
  intros Hlit. induction 1 as [|post out _ IH|c s out Hs _ IH].
  - done.
  - by rewrite sub_scan_here, IH.
  - by rewrite sub_scan_later, IH.
Qed.

Lemma sub_scan_no_occurrence (lit repl : str) (k : nat) (s : str) :
  occurrences lit s = 0 -> sub_scan lit repl k s = drop k s.
Proof.
  revert k; induction s as [|c s IH]; intros k; [by destruct k|].
  cbn [occurrences]. destruct (starts_with lit (c :: s)) eqn:Hs; [done|].
  intros Hocc. destruct k as [|k].
  - rewrite sub_scan_later by done. rewrite IH by done. done.
  - simpl. by apply IH.
Qed.

Lemma occurrences_here (lit pre post : str) :
  lit <> [] -> 1 <= occurrences lit (pre ++ lit ++ post).
Proof.
  intros Hlit. induction pre as [|c pre IH].
  - destruct lit as [|c lit]; [done|].
    assert (starts_with (c :: lit) ((c :: lit) ++ post) = true) as Hs
      by (apply starts_with_app; eauto).
    simpl app in *. cbn [occurrences]. rewrite Hs. lia.
  - simpl app. cbn [occurrences]. lia.
Qed.

(** With a single occurrence, replacing all and replacing the first agree. *)
Lemma sub_scan_single_occurrence (lit repl s : str) :
  lit <> [] -> occurrences lit s = 1 ->
  sub_scan lit repl 0 s = replace_first lit repl s.
Proof.
  intros Hlit. induction s as [|c s IH]; [done|].
  cbn [occurrences replace_first sub_scan].
  destruct (starts_with lit (c :: s)) eqn:Hs.
  - intros [= Hocc]. f_equal. rewrite sub_scan_no_occurrence by done.
    destruct lit; [done|]. simpl. by rewrite Nat.sub_0_r.
  - intros Hocc. f_equal. by apply IH.
Qed.

(** ** The loop over the messages *)

(** [max] is called on a non-empty list only: the body raises nothing. *)
Lemma extract_returns (msg : str) : exists r, extract msg = Ok r.
Proof.
  unfold extract. case_bool_decide; [eauto|].
  destruct (findall_digits msg); [done|]. simpl. eauto.
Qed.

Lemma analyze_loop_all (msgs : list str) (pairs : list (str * str))
    (patterns identifiers : list str) :
  Forall2 (fun m p => extract m = Ok (Some p)) msgs pairs ->
  analyze_loop msgs patterns identifiers =
    Ok (Some (patterns ++ pairs.*2, identifiers ++ pairs.*1)).
Proof.
  intros H. revert patterns identifiers.
  induction H as [|m [i t] msgs pairs Hm _ IH]; intros patterns identifiers; simpl.
  - by rewrite !app_nil_r.
  - rewrite Hm. simpl. rewrite IH. by rewrite <- !(assoc_L (++)).
Qed.

Lemma analyze_loop_none (msgs : list str) (m : str)
    (patterns identifiers : list str) :
  m ∈ msgs -> extract m = Ok None ->
  analyze_loop msgs patterns identifiers = Ok None.
Proof.
  intros Hin Hm. revert patterns identifiers.
  induction msgs as [|m0 msgs IH]; intros patterns identifiers.
  { by apply elem_of_nil in Hin. }
  simpl. destruct (extract_returns m0) as ([[i t]|] & Hm0); rewrite Hm0; simpl; [|done].
  apply elem_of_cons in Hin as [->|Hin]; [congruence|]. by apply IH.
Qed.

Lemma analyze_loop_returns (msgs : list str) (patterns identifiers : list str) :
  exists r, analyze_loop msgs patterns identifiers = Ok r.
Proof.
  revert patterns identifiers.
  induction msgs as [|m0 msgs IH]; intros patterns identifiers; simpl; [eauto|].
  destruct (extract_returns m0) as ([[i t]|] & ->); simpl; eauto.
Qed.

Lemma analyze_loop_lengths (msgs : list str) (patterns identifiers ps ids : list str) :
  analyze_loop msgs patterns identifiers = Ok (Some (ps, ids)) ->
  length ps = length patterns + length msgs /\
  length ids = length identifiers + length msgs.
Proof.
  revert patterns identifiers.
  induction msgs as [|m0 msgs IH]; intros patterns identifiers; simpl.
  - intros [= <- <-]. lia.
  - destruct (extract m0) as [[[i t]|]|]; simpl; try done.
    intros [Hp Hi]%IH. rewrite length_app in Hp, Hi. simpl in *. lia.
Qed.

Lemma has_run_pairs (msgs : list str) :
  Forall (has_run isdecimal) msgs ->
  exists pairs, Forall2 (fun m p => extract m = Ok (Some p)) msgs pairs.
Proof.
  induction 1 as [|m msgs (id & Hm & _)%extract_run _ (pairs & IH)].
  - by exists [].
  - eexists (_ :: pairs). by constructor.
Qed.

(** The guard of the last line keeps the index access in range. *)
Lemma index_guarded (patterns : list str) :
  length (set_of patterns) = 1 -> exists p, index patterns 0 = Ok p.
Proof.
  intros [Hne _]%set_of_singleton. destruct patterns as [|p ?]; [done|].
  by exists p.
Qed.

(** ** Sorting *)

Lemma sorted_Permutation (xs : list str) : sorted xs ≡ₚ xs.
Proof. apply merge_sort_Permutation. Qed.

Lemma sorted_Sorted (xs : list str) : Sorted str_le (sorted xs).
Proof. apply Sorted_merge_sort, _. Qed.

(** The result of [sorted] depends on the items only, not on the order in
    which the set hands them over. *)
Lemma sorted_order_independent (xs ys : list str) :
  xs ≡ₚ ys -> sorted xs = sorted ys.
Proof.
  intros Hperm. apply (Sorted_unique str_le); try apply sorted_Sorted.
  by rewrite !sorted_Permutation.
Qed.

Lemma Sorted_lexico_NoDup (l : list str) : Sorted lexico l -> NoDup l.
Proof.
  intros Hl%(Sorted_StronglySorted _).
  induction Hl as [|x l _ IH Hx]; constructor; [|done].
  intros Hin. rewrite Forall_forall in Hx.
  by apply (irreflexivity lexico x), Hx.
Qed.

Lemma sorted_strict (xs : list str) : NoDup xs -> Sorted lexico (sorted xs).
Proof.
  intros Hnd. rewrite <- sorted_Permutation in Hnd.
  induction (sorted_Sorted xs) as [|x l _ IH Hhd]; [constructor|].
  apply NoDup_cons in Hnd as [Hx Hl]. constructor; [by apply IH|].
  destruct Hhd as [|y l Hxy]; constructor.
  apply str_le_lexico in Hxy.
  destruct (trichotomy lexico x y) as [?|[->|?]]; [done| |done].
  destruct Hx. left.
Qed.

(** ** The format summary *)

Lemma str_isdigit_nonempty (id : str) :
  str_isdigit id = bool_decide (id <> []) && forallb isdigit id.
Proof. unfold str_isdigit. by rewrite bool_decide_not. Qed.

Lemma str_isalnum_nonempty (id : str) :
  str_isalnum id = bool_decide (id <> []) && forallb isalnum id.
Proof. unfold str_isalnum. by rewrite bool_decide_not. Qed.

(** Each pass of the loop adds the label of one identifier. *)
Lemma formats_loop_labels (ids : list str) (formats : pyset) :
  formats_loop ids formats = foldl (fun s id => set_add (label id) s) formats ids.
Proof.
  revert formats; induction ids as [|id ids IH]; intros formats; simpl; [done|].
  rewrite IH. f_equal. unfold label.
  rewrite <- str_isdigit_nonempty, <- str_isalnum_nonempty.
  by destruct (str_isdigit id), (str_isalnum id).
Qed.

Lemma formats_loop_set_of (ids : list str) :
  formats_loop ids [] = set_of (map label ids).
Proof.
  rewrite formats_loop_labels. unfold set_of. generalize (@nil str).
  induction ids as [|id ids IH]; intros s; simpl; [done|]. apply IH.
Qed.

Lemma elem_of_formats_loop (ids : list str) (x : str) :
  x ∈ formats_loop ids [] <-> exists id, id ∈ ids /\ x = label id.
Proof.
  rewrite formats_loop_set_of, elem_of_set_of, list_elem_of_fmap. naive_solver.
Qed.

Lemma get_identifier_type_summary (ids : list str) :
  summary_of label ids (get_identifier_type ids).
Proof.
  exists (sorted (formats_loop ids [])). split_and!; [| |done].
  - apply sorted_strict. rewrite formats_loop_set_of. apply NoDup_set_of.
  - intros x. by rewrite sorted_Permutation, elem_of_formats_loop.
Qed.

(** The contract's wording fixes the summary: at most one string fits. *)
Lemma summary_of_unique (lbl : str -> str) (ids : list str) (out1 out2 : str) :
  summary_of lbl ids out1 -> summary_of lbl ids out2 -> out1 = out2.
Proof.
  intros (l1 & Hs1 & Hin1 & ->) (l2 & Hs2 & Hin2 & ->). f_equal.
  assert (AntiSymm (=) (@lexico str _)) as Hanti.
  { intros a b Hab Hba. destruct (irreflexivity lexico a). by trans b. }
  apply (Sorted_unique (@lexico str _)); [done..|].
  apply NoDup_Permutation; [by apply Sorted_lexico_NoDup..|].
  intros x. by rewrite Hin1, Hin2.
Qed.

(** ** Candidate selection *)

Section CandidateFacts.
Variable lower : str -> str.

Lemma value_counts_lookup (column : list str) (v : str) :
  value_counts column !! v =
    match length (filter (fun x => x = v) column) with
    | 0 => None
    | S n => Some (S n)
    end.
Proof.
  induction column as [|x column IH]; simpl; [done|].
  rewrite filter_cons. destruct (decide (x = v)) as [->|Hne].
  - rewrite lookup_insert_eq, IH. simpl.
    by destruct (length (filter (fun x => x = v) column)).
  - by rewrite lookup_insert_ne.
Qed.

Lemma count_rows (traffic : list row) (number : str) :
  length (filter (fun x => x = number)
            (map (fun r => lower (destination_number r)) traffic)) =
  length (records_of lower traffic number).
Proof.
  unfold records_of. induction traffic as [|r traffic IH]; [done|].
  simpl. rewrite !filter_cons. case_decide; simpl; by rewrite IH.
Qed.

Lemma elem_of_known_numbers (tags : list str) (number : str) :
  number ∈ known_numbers lower tags <->
  exists t, t ∈ tags /\ lower (strip t) = number.
Proof.
  unfold known_numbers. rewrite elem_of_list_to_set, list_elem_of_fmap.
  naive_solver.
Qed.

Lemma elem_of_candidates (traffic : list row) (tags : list str) (number : str) :
  number ∈ candidates lower traffic tags <->
  MIN_OCCURRENCES <= length (records_of lower traffic number) /\
  number ∉ known_numbers lower tags.
Proof.
  unfold candidates. rewrite list_elem_of_filter, list_elem_of_fmap.
  rewrite <- count_rows. split.
  - intros (Hknown & [v n] & -> & [Hn Hv%elem_of_map_to_list]%list_elem_of_filter).
    split; [|done]. simpl in *. rewrite value_counts_lookup in Hv.
    destruct (length _); [done|]. by injection Hv as <-.
  - intros (Hn & Hknown). split; [done|].
    exists (number,
            length (filter (fun x => x = number)
                      (map (fun r => lower (destination_number r)) traffic))).
    split; [done|]. apply list_elem_of_filter. split; [done|].
    apply elem_of_map_to_list. rewrite value_counts_lookup.
    destruct (length _) eqn:E; [|done]. unfold MIN_OCCURRENCES in Hn. lia.
Qed.

Lemma classifier_calls_numbers (traffic : list row) (tags : list str) :
  (classifier_calls lower traffic tags).*1 = candidates lower traffic tags.
Proof.
  unfold classifier_calls. rewrite <- list_fmap_compose.
  apply list_fmap_id.
Qed.
End CandidateFacts.

(** ** The claims of the design contract *)

(** A run of digits found by evaluation. *)
Ltac run_found :=
  apply findall_digits_nonempty; vm_compute; discriminate.
(** No run of digits, by evaluation. *)
Ltac run_absent :=
  rewrite findall_digits_nonempty; vm_compute; intros H; by apply H.

(** C1, as stated, fails: in ["7 and 7"] the identifier ["7"] occurs twice
    and the pattern has the placeholder in both places, whereas replacing
    the first occurrence only leaves the second ["7"]. *)
Lemma C1_first_occurrence_only_refuted :
  has_run isdecimal (u "7 and 7") /\
  extract (u "7 and 7") = Ok (Some (u "7", u "<ID> and <ID>")) /\
  strip (replace_first (u "7") ID (u "7 and 7")) = u "<ID> and 7" /\
  ~ (exists id, extract (u "7 and 7") =
                Ok (Some (id, strip (replace_first id ID (u "7 and 7"))))).
Proof.
  assert (extract (u "7 and 7") = Ok (Some (u "7", u "<ID> and <ID>"))) as E
    by by vm_compute.
  split_and!; [run_found|done|by vm_compute|].
  intros (id & Hid). rewrite E in Hid. injection Hid as <- Ht.
  vm_compute in Ht. discriminate.
Qed.

(** C1, amended: for every message with at least one digit run, the
    template is the message with every occurrence of the identifier, met
    from left to right, replaced by ["<ID>"], then stripped of leading and
    trailing whitespace; the identifier occurs at least once, and when it
    occurs once, this is the replacement of its first occurrence. *)
Theorem C1_template_replaces_every_occurrence (msg : str) :
  has_run isdecimal msg ->
  exists id t0,
    extract msg = Ok (Some (id, strip t0)) /\
    1 <= occurrences id msg /\
    replaced_all id ID msg t0 /\
    (forall out, replaced_all id ID msg out -> out = t0) /\
    (occurrences id msg = 1 -> t0 = replace_first id ID msg).
Proof.
  intros (id & Hextract & pre & post & (Hmsg & Hid & _) & _)%extract_run.
  exists id, (sub_escaped id ID msg). split; [done|].
  assert (sub_escaped id ID msg = sub_scan id ID 0 msg) as ->
    by by destruct id.
  split_and!.
  - rewrite Hmsg. by apply occurrences_here.
  - by apply sub_scan_replaced_all.
  - intros out. by apply replaced_all_unique.
  - by apply sub_scan_single_occurrence.
Qed.

Lemma C1_template_replaces_every_occurrence_witness :
  has_run isdecimal (u " Code 12 and 12 ") /\
  exists id t0,
    extract (u " Code 12 and 12 ") = Ok (Some (id, strip t0)) /\
    1 <= occurrences id (u " Code 12 and 12 ") /\
    replaced_all id ID (u " Code 12 and 12 ") t0 /\
    (forall out, replaced_all id ID (u " Code 12 and 12 ") out -> out = t0) /\
    (occurrences id (u " Code 12 and 12 ") = 1 ->
     t0 = replace_first id ID (u " Code 12 and 12 ")).
Proof.
  split; [|apply (C1_template_replaces_every_occurrence (u " Code 12 and 12 "))];
    run_found.
Defined.

(** With one occurrence the two readings give the same template. *)
Example template_single_occurrence :
  extract (u " OTP 5521 sent ") = Ok (Some (u "5521", u "OTP <ID> sent")) /\
  occurrences (u "5521") (u " OTP 5521 sent ") = 1 /\
  strip (replace_first (u "5521") ID (u " OTP 5521 sent ")) = u "OTP <ID> sent".
Proof. by vm_compute. Qed.

(** C2, as stated, fails: the message U+0037 U+0020 U+0664 U+0662 (the
    digit 7, a space, ARABIC-INDIC DIGIT FOUR and TWO) has the run ["7"] of
    ASCII digits, and the identifier is the longer run of Arabic-Indic
    digits, which [\d] matches as well. *)
Lemma C2_ascii_digits_refuted :
  has_run is_ascii_digit [0x37; 0x20; 0x664; 0x662]%N /\
  extract [0x37; 0x20; 0x664; 0x662]%N =
    Ok (Some ([0x664; 0x662]%N, u "7 <ID>")) /\
  ~ (exists id t,
       extract [0x37; 0x20; 0x664; 0x662]%N = Ok (Some (id, t)) /\
       leftmost_longest is_ascii_digit [0x37; 0x20; 0x664; 0x662]%N id).
Proof.
  split_and!.
  - exists [], [0x37%N], [0x20; 0x664; 0x662]%N.
    unfold maximal_run. split_and!; try done. by intros ? [= <-].
  - by vm_compute.
  - intros (id & t & Hid & pre & post & (_ & _ & Hdig & _) & _).
    vm_compute in Hid. injection Hid as <- _. by vm_compute in Hdig.
Qed.

(** C2, amended: for every message containing at least one maximal run of
    consecutive decimal digits, as [\d] matches them (the ASCII digits among
    them), the identifier is a run of greatest length, and the leftmost of
    the runs of that length; for ["12 and 34"] it is ["12"]. *)
Theorem C2_identifier_leftmost_longest :
  (forall msg, has_run isdecimal msg ->
     exists id t, extract msg = Ok (Some (id, t)) /\
                  leftmost_longest isdecimal msg id) /\
  (forall c, is_ascii_digit c = true -> isdecimal c = true) /\
  extract (u "12 and 34") = Ok (Some (u "12", u "<ID> and 34")).
Proof.
  split_and!.
  - intros msg (id & Hid & Hll)%extract_run. eauto.
  - intros c Hc. unfold isdecimal, in_ranges, decimal_table.
    simpl existsb. unfold is_ascii_digit in Hc. simpl in Hc |- *.
    by rewrite Hc.
  - by vm_compute.
Qed.

Lemma C2_identifier_leftmost_longest_witness :
  has_run isdecimal (u "A123B45 678") /\
  exists id t, extract (u "A123B45 678") = Ok (Some (id, t)) /\
               leftmost_longest isdecimal (u "A123B45 678") id.
Proof.
  split; [|apply (proj1 C2_identifier_leftmost_longest)]; run_found.
Defined.

(** C3: for a non-empty list of messages that all have a digit run, with
    the identifier and the template of each message in [pairs],
    [analyze_messages] returns [None] when the templates are not all the
    same, and otherwise the shared template with the identifiers of all the
    messages in the order of the input. *)
Theorem C3_shared_template_or_none (msgs : list str) :
  msgs <> [] ->
  Forall (has_run isdecimal) msgs ->
  exists pairs,
    Forall2 (fun m p => extract m = Ok (Some p)) msgs pairs /\
    (~ all_same pairs.*2 -> analyze_messages msgs = Ok None) /\
    (all_same pairs.*2 ->
     exists t,
       (forall t', t' ∈ pairs.*2 -> t' = t) /\
       analyze_messages msgs =
         Ok (Some {| pattern := t; identifiers := pairs.*1 |})).
Proof.
  intros Hne (pairs & Hpairs)%has_run_pairs. exists pairs. split; [done|].
  unfold analyze_messages. rewrite (analyze_loop_all _ _ _ _ Hpairs). simpl.
  assert (pairs.*2 <> []) as Hts.
  { destruct Hpairs; [done|]. by simpl. }
  pose proof (set_of_singleton pairs.*2) as Hguard.
  destruct (length (set_of pairs.*2) =? 1) eqn:Hlen.
  - apply Nat.eqb_eq, Hguard in Hlen as [_ Hsame]. split; [done|]. intros _.
    destruct pairs.*2 as [|t ts] eqn:E; [done|]. exists t. split; [|done].
    intros t' Ht'. apply Hsame; [done|left].
  - apply Nat.eqb_neq in Hlen. split; [done|]. intros Hsame.
    destruct Hlen. by apply Hguard.
Qed.

Lemma C3_shared_template_or_none_witness :
  [u "OTP 5521 sent"; u "OTP 7734 sent"] <> [] /\
  Forall (has_run isdecimal) [u "OTP 5521 sent"; u "OTP 7734 sent"] /\
  exists pairs,
    Forall2 (fun m p => extract m = Ok (Some p))
      [u "OTP 5521 sent"; u "OTP 7734 sent"] pairs /\
    (~ all_same pairs.*2 ->
     analyze_messages [u "OTP 5521 sent"; u "OTP 7734 sent"] = Ok None) /\
    (all_same pairs.*2 ->
     exists t,
       (forall t', t' ∈ pairs.*2 -> t' = t) /\
       analyze_messages [u "OTP 5521 sent"; u "OTP 7734 sent"] =
         Ok (Some {| pattern := t; identifiers := pairs.*1 |})).
Proof.
  split; [done|]. split; [repeat constructor; run_found|].
  apply (C3_shared_template_or_none [u "OTP 5521 sent"; u "OTP 7734 sent"]);
    [done|repeat constructor; run_found].
Defined.

(** C4: if any message of the list has no digit run, [analyze_messages]
    returns [None] for the whole list, whatever the other messages hold. *)
Theorem C4_all_or_nothing (msgs : list str) (m : str) :
  m ∈ msgs -> ~ has_run isdecimal m -> analyze_messages msgs = Ok None.
Proof.
  intros Hin Hm%extract_no_run. unfold analyze_messages.
  by rewrite (analyze_loop_none msgs m).
Qed.

Lemma C4_all_or_nothing_witness :
  u "No digits here" ∈ [u "Code 111"; u "Code 222"; u "No digits here"] /\
  ~ has_run isdecimal (u "No digits here") /\
  analyze_messages [u "Code 111"; u "Code 222"; u "No digits here"] = Ok None.
Proof.
  split; [do 2 right; left|]. split; [run_absent|].
  apply (C4_all_or_nothing _ (u "No digits here")); [do 2 right; left|run_absent].
Defined.

(** C5: [analyze_messages] applied to the empty list returns [None]. *)
Theorem C5_empty_list_none : analyze_messages [] = Ok None.
Proof. reflexivity. Qed.

(** C6: whenever [analyze_messages] returns a result, its list of
    identifiers is as long as the list of messages. *)
Theorem C6_identifiers_length (msgs : list str) (r : pattern_data) :
  analyze_messages msgs = Ok (Some r) ->
  length (identifiers r) = length msgs.
Proof.
  unfold analyze_messages.
  destruct (analyze_loop msgs [] []) as [[[ps ids]|]|] eqn:Hloop; simpl; try done.
  apply analyze_loop_lengths in Hloop as [_ Hids].
  destruct (length (set_of ps) =? 1); [|done].
  destruct (index ps 0); simpl; [|done]. by intros [= <-].
Qed.

Lemma C6_identifiers_length_witness :
  analyze_messages [u "Your code is 9081"; u "Your code is 1234"; u "Your code is 5567"] =
    Ok (Some {| pattern := u "Your code is <ID>";
                identifiers := [u "9081"; u "1234"; u "5567"] |}) /\
  length (identifiers {| pattern := u "Your code is <ID>";
                         identifiers := [u "9081"; u "1234"; u "5567"] |}) =
  length [u "Your code is 9081"; u "Your code is 1234"; u "Your code is 5567"].
Proof.
  split; [by vm_compute|].
  apply C6_identifiers_length. by vm_compute.
Defined.

(** C7, as stated, fails on the empty identifier: all its characters are
    digits, so that its label would be ["0-digit numeric"], and
    [get_identifier_type] answers ["mixed formats"], since [str.isdigit]
    and [str.isalnum] are false of the empty string. *)
Lemma C7_empty_identifier_refuted :
  forallb isdigit [] = true /\
  label_as_stated [] = u "0-digit numeric" /\
  get_identifier_type [[]] = u "mixed formats" /\
  ~ summary_of label_as_stated [[]] (get_identifier_type [[]]).
Proof.
  split_and!; [done..|]. intros Hclaim.
  assert (summary_of label_as_stated [[]] (u "0-digit numeric")) as Hspec.
  { exists [u "0-digit numeric"]. split_and!; [repeat constructor| |done].
    intros x. rewrite list_elem_of_singleton. split.
    - intros ->. exists []. split; [left|done].
    - by intros (id & ->%list_elem_of_singleton & ->). }
  pose proof (summary_of_unique _ _ _ _ Hclaim Hspec) as E.
  vm_compute in E. discriminate.
Qed.

(** C7, amended: for every sequence of identifiers, the summary gives each
    identifier one label -- ["<N>-digit numeric"] when it is not empty and
    all its characters are digits, ["<N>-digit alphanumeric"] when it is not
    empty, not all digits and all alphanumeric, with N its length, and
    ["mixed formats"] otherwise, the empty identifier included -- and
    returns the distinct labels in increasing lexicographic order, joined
    with [" | "]; the identifiers ["1234"], ["ab12"], ["7777"] yield
    ["4-digit alphanumeric | 4-digit numeric"].  For an identifier that is
    not empty the label is the one the contract words. *)
Theorem C7_format_summary :
  (forall ids, summary_of label ids (get_identifier_type ids)) /\
  (forall id, id <> [] -> label id = label_as_stated id) /\
  get_identifier_type [u "1234"; u "ab12"; u "7777"] =
    u "4-digit alphanumeric | 4-digit numeric".
Proof.
  split_and!; [apply get_identifier_type_summary| |by vm_compute].
  intros id Hid. unfold label, label_as_stated.
  by rewrite (bool_decide_eq_true_2 _ Hid).
Qed.

Lemma C7_format_summary_witness :
  u "ab12" <> [] /\ label (u "ab12") = label_as_stated (u "ab12").
Proof.
  split; [done|]. by apply (proj1 (proj2 C7_format_summary)).
Defined.

(** C8: the format summary of a sequence of identifiers and of any
    permutation of it are the same string. *)
Theorem C8_summary_order_independent (ids ids' : list str) :
  ids ≡ₚ ids' -> get_identifier_type ids = get_identifier_type ids'.
Proof.
  intros Hperm. unfold get_identifier_type. f_equal.
  apply sorted_order_independent.
  apply NoDup_Permutation.
  - rewrite formats_loop_set_of. apply NoDup_set_of.
  - rewrite formats_loop_set_of. apply NoDup_set_of.
  - intros x. rewrite !elem_of_formats_loop. by setoid_rewrite Hperm.
Qed.

Lemma C8_summary_order_independent_witness :
  [u "1234"; u "ab12"; u "77"] ≡ₚ [u "77"; u "1234"; u "ab12"] /\
  get_identifier_type [u "1234"; u "ab12"; u "77"] =
  get_identifier_type [u "77"; u "1234"; u "ab12"].
Proof.
  assert ([u "1234"; u "ab12"; u "77"] ≡ₚ [u "77"; u "1234"; u "ab12"]) as H.
  { change [u "77"; u "1234"; u "ab12"] with ([u "77"] ++ [u "1234"; u "ab12"]).
    change [u "1234"; u "ab12"; u "77"] with ([u "1234"; u "ab12"] ++ [u "77"]).
    apply Permutation_app_comm. }
  split; [exact H|]. exact (C8_summary_order_independent _ _ H).
Defined.

(** C9, at a failing input: the tags table lists [" 5000 "] and three
    traffic rows have the destination number [" 5000 "].  The registry
    holds the tag stripped and lower-cased, ["5000"], and the destination
    numbers are lower-cased only, so the number, listed as it stands, is
    not found in the registry: it is a candidate and its messages are
    handed to [analyze_messages].  [str.lower] leaves the two strings as
    they are. *)
Theorem C9_listed_number_selected (lower : str -> str) :
  lower (u " 5000 ") = u " 5000 " ->
  lower (u "5000") = u "5000" ->
  u " 5000 " ∈ padded_tags /\
  (forall r, r ∈ padded_traffic -> destination_number r = u " 5000 ") /\
  known_numbers lower padded_tags = {[ u "5000" ]} /\
  u " 5000 " ∈ candidates lower padded_traffic padded_tags /\
  (u " 5000 ",
   [u "Your code is 9081"; u "Your code is 1234"; u "Your code is 5567"])
    ∈ classifier_calls lower padded_traffic padded_tags.
Proof.
  intros Hpadded Hplain.
  assert (strip (u " 5000 ") = u "5000") as Hstrip by by vm_compute.
  assert (records_of lower padded_traffic (u " 5000 ") = padded_traffic) as Hrecords.
  { unfold records_of, padded_traffic.
    by rewrite !filter_cons_True, filter_nil by (simpl; exact Hpadded). }
  assert (known_numbers lower padded_tags = {[ u "5000" ]}) as Hknown.
  { unfold known_numbers, padded_tags. simpl. rewrite Hstrip, Hplain.
    apply (right_id_L _ _). }
  assert (u " 5000 " ∈ candidates lower padded_traffic padded_tags) as Hcand.
  { apply elem_of_candidates. rewrite Hrecords, Hknown. split.
    - unfold MIN_OCCURRENCES, padded_traffic. simpl. lia.
    - intros Heq%elem_of_singleton. vm_compute in Heq. discriminate. }
  split_and!; [left| |done|done|].
  - intros r Hr. unfold padded_traffic in Hr.
    repeat (apply elem_of_cons in Hr as [->|Hr]); try done.
    by apply elem_of_nil in Hr.
  - unfold classifier_calls. apply list_elem_of_fmap.
    exists (u " 5000 "). split; [|done]. by rewrite Hrecords.
Qed.

Lemma C9_listed_number_selected_witness :
  (u " 5000 " = u " 5000 " /\ u "5000" = u "5000") /\
  u " 5000 " ∈ padded_tags /\
  known_numbers (fun s => s) padded_tags = {[ u "5000" ]} /\
  u " 5000 " ∈ candidates (fun s => s) padded_traffic padded_tags.
Proof.
  split; [done|].
  destruct (C9_listed_number_selected (fun s => s) eq_refl eq_refl)
    as (Htags & _ & Hknown & Hcand & _).
  done.
Defined.

(** On that input the padded number is the only candidate. *)
Example candidates_padded :
  candidates (fun s => s) padded_traffic padded_tags = [u " 5000 "].
Proof. by vm_compute. Qed.

(** On the sample, the number with three rows is the only candidate. *)
Example candidates_sample :
  candidates (fun s => s) sample_traffic sample_tags = [u "5000"].
Proof. by vm_compute. Qed.

(** C10: [analyze_messages] returns for every list of messages and raises
    nothing.  A list whose set has one element is not empty; [patterns[0]]
    is evaluated only when the set of patterns has one element, and then
    yields the pattern of the result; otherwise the result is [None], as it
    is for the empty list. *)
Theorem C10_index_access_guarded (msgs : list str) :
  (exists r, analyze_messages msgs = Ok r) /\
  (forall patterns : list str, length (set_of patterns) = 1 -> patterns <> []) /\
  (forall ps ids,
     analyze_loop msgs [] [] = Ok (Some (ps, ids)) ->
     (length (set_of ps) = 1 ->
      exists p, index ps 0 = Ok p /\
                analyze_messages msgs = Ok (Some {| pattern := p; identifiers := ids |})) /\
     (length (set_of ps) <> 1 -> analyze_messages msgs = Ok None)) /\
  analyze_messages [] = Ok None.
Proof.
  split_and!; [| | |done].
  - unfold analyze_messages.
    destruct (analyze_loop_returns msgs [] []) as ([[ps ids]|] & ->); simpl; [|eauto].
    destruct (length (set_of ps) =? 1) eqn:Hlen; [|eauto].
    apply Nat.eqb_eq, index_guarded in Hlen as (p & ->). simpl. eauto.
  - by intros patterns [Hne _]%set_of_singleton.
  - intros ps ids Hloop. unfold analyze_messages. rewrite Hloop. simpl. split.
    + intros Hlen. destruct (index_guarded ps Hlen) as (p & Hp).
      exists p. split; [done|]. apply Nat.eqb_eq in Hlen. by rewrite Hlen, Hp.
    + intros Hlen%Nat.eqb_neq. by rewrite Hlen.
Qed.

Lemma C10_index_access_guarded_witness :
  analyze_loop [u "OTP 5521 sent"; u "OTP 7734 sent"] [] [] =
    Ok (Some ([u "OTP <ID> sent"; u "OTP <ID> sent"], [u "5521"; u "7734"])) /\
  length (set_of [u "OTP <ID> sent"; u "OTP <ID> sent"]) = 1 /\
  exists p,
    index [u "OTP <ID> sent"; u "OTP <ID> sent"] 0 = Ok p /\
    analyze_messages [u "OTP 5521 sent"; u "OTP 7734 sent"] =
      Ok (Some {| pattern := p; identifiers := [u "5521"; u "7734"] |}).
Proof.
  split; [by vm_compute|]. split; [by vm_compute|].
  apply (proj1 (proj2 (proj2 (C10_index_access_guarded
                                [u "OTP 5521 sent"; u "OTP 7734 sent"]))) _ _);
    by vm_compute.
Defined.

Import Main.

(** * Further properties of the analyzer *)

(** ** Results of the loop body *)

Lemma has_run_digit (msg : str) :
  has_run isdecimal msg <-> exists c, c ∈ msg /\ isdecimal c = true.
Proof.
  split.
  - intros (pre & r & post & -> & Hne & Hdig & _).
    destruct r as [|c r]; [done|]. exists c. split; [set_solver|].
    simpl in Hdig. by apply andb_true_iff in Hdig as [? _].
  - intros (c & (pre & post & ->)%list_elem_of_split & Hc).
    apply findall_digits_nonempty.
    destruct (findall_scan_covers false pre [c] post) as [(x & Hx & _)|[? _]];
      [done|by simpl; rewrite Hc|..|done].
    intros E. unfold findall_digits in E. simpl in Hx. rewrite E in Hx.
    by apply elem_of_nil in Hx.
Qed.

(** What the body returns tells whether the message has a run. *)
Lemma extract_some_run (msg id t : str) :
  extract msg = Ok (Some (id, t)) ->
  has_run isdecimal msg /\ t = strip (sub_escaped id ID msg) /\
  leftmost_longest isdecimal msg id.
Proof.
  intros Hex. destruct (findall_digits msg) as [|x l] eqn:E.
  - rewrite extract_no_run in Hex; [done|].
    rewrite findall_digits_nonempty, E. intros H. by apply H.
  - assert (has_run isdecimal msg) as Hrun.
    { apply findall_digits_nonempty. by rewrite E. }
    destruct (extract_run msg Hrun) as (id' & Hex' & Hll).
    rewrite Hex' in Hex. by injection Hex as <- <-.
Qed.

Lemma extract_identifier_digits (msg id t : str) :
  extract msg = Ok (Some (id, t)) -> id <> [] /\ forallb isdecimal id = true.
Proof.
  intros (_ & _ & pre & post & (_ & Hne & Hdig & _) & _)%extract_some_run. done.
Qed.

Lemma analyze_loop_inv (msgs : list str) (patterns identifiers ps ids : list str) :
  analyze_loop msgs patterns identifiers = Ok (Some (ps, ids)) ->
  exists pairs,
    Forall2 (fun m p => extract m = Ok (Some p)) msgs pairs /\
    ps = patterns ++ pairs.*2 /\ ids = identifiers ++ pairs.*1.
Proof.
  revert patterns identifiers.
  induction msgs as [|m msgs IH]; intros patterns identifiers; simpl.
  - intros [= <- <-]. exists []. by rewrite !app_nil_r.
  - destruct (extract m) as [[[i t]|]|] eqn:Hm; simpl; try done.
    intros (pairs & Hpairs & -> & ->)%IH.
    exists ((i, t) :: pairs). split_and!; [by constructor|..];
      by rewrite <- (assoc_L (++)).
Qed.

Lemma pairs_aligned (msgs : list str) (pairs : list (str * str)) (t : str) :
  Forall2 (fun m p => extract m = Ok (Some p)) msgs pairs ->
  (forall t', t' ∈ pairs.*2 -> t' = t) ->
  Forall2 (fun m id => extract m = Ok (Some (id, t))) msgs pairs.*1.
Proof.
  induction 1 as [|m [i t'] msgs pairs Hm _ IH]; intros Hsame; simpl.
  - constructor.
  - constructor.
    + rewrite Hm. do 3 f_equal. apply Hsame. left.
    + apply IH. intros t'' Ht. apply Hsame. by right.
Qed.

(** [analyze_messages] returns a result exactly when the list is not empty
    and the body gives every message the pattern of the result, with the
    identifier at the position of the message. *)
Lemma analyze_messages_some (msgs : list str) (r : pattern_data) :
  analyze_messages msgs = Ok (Some r) <->
  msgs <> [] /\
  Forall2 (fun m id => extract m = Ok (Some (id, pattern r))) msgs (identifiers r).
Proof.
  split.
  - unfold analyze_messages.
    destruct (analyze_loop msgs [] []) as [[[ps ids]|]|] eqn:Hloop; simpl; try done.
    apply analyze_loop_inv in Hloop as (pairs & Hpairs & -> & ->). simpl.
    destruct (length (set_of pairs.*2) =? 1) eqn:Hlen; [|done].
    apply Nat.eqb_eq, set_of_singleton in Hlen as [Hne Hsame].
    destruct pairs.*2 as [|t0 ts] eqn:E; [done|]. simpl. intros [= <-]. simpl.
    split; [destruct Hpairs; by simplify_eq/=|].
    apply pairs_aligned; [done|]. rewrite E. intros t' Ht'.
    apply Hsame; [done|left].
  - intros [Hne Hall]. destruct r as [t ids]. simpl in *.
    set (pairs := (fun id => (id, t)) <$> ids).
    assert (Forall2 (fun m p => extract m = Ok (Some p)) msgs pairs) as Hpairs.
    { unfold pairs. by rewrite Forall2_fmap_r. }
    assert (pairs.*1 = ids) as H1.
    { unfold pairs. rewrite <- list_fmap_compose. apply list_fmap_id. }
    assert (forall t', t' ∈ pairs.*2 -> t' = t) as H2.
    { unfold pairs. rewrite <- list_fmap_compose.
      by intros t' (id & -> & _)%list_elem_of_fmap. }
    unfold analyze_messages. rewrite (analyze_loop_all _ _ _ _ Hpairs). simpl.
    assert (length (set_of pairs.*2) = 1) as Hlen.
    { apply set_of_singleton. split.
      - destruct Hpairs; [done|]. by simpl.
      - intros a b Ha%H2 Hb%H2. congruence. }
    apply Nat.eqb_eq in Hlen as ->.
    destruct pairs.*2 as [|t0 ts] eqn:E.
    { destruct Hpairs; [done|]. by simpl in E. }
    simpl. rewrite H1. do 3 f_equal. apply H2. left.
Qed.

(** ** Classification of a group *)

Lemma analyze_messages_returns (msgs : list str) :
  exists r, analyze_messages msgs = Ok r.
Proof.
  unfold analyze_messages.
  destruct (analyze_loop_returns msgs [] []) as ([[ps ids]|] & ->); simpl; [|eauto].
  destruct (length (set_of ps) =? 1) eqn:Hlen; [|eauto].
  apply Nat.eqb_eq, index_guarded in Hlen as (p & ->). simpl. eauto.
Qed.

(** X1: [analyze_messages] returns a result exactly when the list is not
    empty and the loop body gives every message the pattern of the result
    and, as its identifier, the entry of [identifiers] at the position of
    the message. *)
Theorem classification_criterion (msgs : list str) (r : pattern_data) :
  analyze_messages msgs = Ok (Some r) <->
  msgs <> [] /\
  Forall2 (fun m id => extract m = Ok (Some (id, pattern r))) msgs (identifiers r).
Proof. apply analyze_messages_some. Qed.

(** X2: a list of one message is not classified exactly when the message
    holds no character that [\d] matches. *)
Theorem single_message_classified (msg : str) :
  analyze_messages [msg] = Ok None <->
  forall c, c ∈ msg -> isdecimal c = false.
Proof.
  split.
  - intros Hnone c Hc. destruct (isdecimal c) eqn:Hdig; [|done]. exfalso.
    assert (has_run isdecimal msg) as Hrun by (apply has_run_digit; eauto).
    destruct (extract_run msg Hrun) as (id & Hid & _).
    assert (analyze_messages [msg] =
            Ok (Some {| pattern := strip (sub_escaped id ID msg);
                        identifiers := [id] |})) as Hsome.
    { apply analyze_messages_some. split; [done|]. simpl. by repeat constructor. }
    congruence.
  - intros Hno. unfold analyze_messages.
    rewrite (analyze_loop_none [msg] msg); [done|left|].
    apply extract_no_run. intros (c & Hc & Hdig)%has_run_digit.
    rewrite (Hno c Hc) in Hdig. done.
Qed.

Lemma Forall2_permute {A B} (P : A -> B -> Prop) (l l' : list A) (k : list B) :
  l ≡ₚ l' -> Forall2 P l k ->
  exists k', zip l' k' ≡ₚ zip l k /\ Forall2 P l' k'.
Proof.
  intros Hperm. revert k.
  induction Hperm as [|x l l' _ IH|x y l|l l' l'' _ IH1 _ IH2]; intros k Hk.
  - exists k. by split.
  - inversion Hk as [|? b ? k0 Hx Hl]; subst.
    destruct (IH k0 Hl) as (k' & Hk' & HP). exists (b :: k').
    split; [simpl; by constructor|by constructor].
  - inversion Hk as [|? b ? k0 Hy Hl]; subst.
    inversion Hl as [|? c ? k1 Hx Hl']; subst.
    exists (c :: b :: k1). split; [simpl; apply perm_swap|by repeat constructor].
  - destruct (IH1 k Hk) as (k' & Hk' & HP').
    destruct (IH2 k' HP') as (k'' & Hk'' & HP'').
    exists k''. split; [by etrans|done].
Qed.

(** X3: reordering the messages does not change whether they are
    classified, nor the pattern, and the identifiers are reordered with the
    messages: the pairs of a message and its identifier are the same up to
    their order, so that the identifier at a position of the new result is
    the one the first result has for the same message. *)
Theorem classification_order_independent (msgs msgs' : list str) :
  msgs ≡ₚ msgs' ->
  (analyze_messages msgs = Ok None -> analyze_messages msgs' = Ok None) /\
  (forall r, analyze_messages msgs = Ok (Some r) ->
     exists ids',
       analyze_messages msgs' =
         Ok (Some {| pattern := pattern r; identifiers := ids' |}) /\
       zip msgs' ids' ≡ₚ zip msgs (identifiers r) /\
       (forall i m id, msgs' !! i = Some m -> ids' !! i = Some id ->
          exists j, msgs !! j = Some m /\ identifiers r !! j = Some id)).
Proof.
  intros Hperm.
  assert (forall a b r, a ≡ₚ b -> analyze_messages a = Ok (Some r) ->
            exists ids',
              analyze_messages b =
                Ok (Some {| pattern := pattern r; identifiers := ids' |}) /\
              zip b ids' ≡ₚ zip a (identifiers r)) as Hsome.
  { intros a b r Hab [Hne Hall]%analyze_messages_some.
    destruct (Forall2_permute _ _ _ _ Hab Hall) as (ids' & Hids & Hall').
    exists ids'. split; [|done]. apply analyze_messages_some. split; [|done].
    intros ->. by apply Permutation_nil_r in Hab. }
  split.
  - intros Hnone.
    destruct (analyze_messages_returns msgs') as [[r|] Hr]; [|done].
    destruct (Hsome msgs' msgs r) as (ids' & Hback & _); [done..|]. congruence.
  - intros r Hr. destruct (Hsome msgs msgs' r Hperm Hr) as (ids' & Hres & Hzip).
    exists ids'. split_and!; [done..|].
    intros i m id Hm Hid.
    assert ((m, id) ∈ zip msgs (identifiers r)) as (j & Hj)%list_elem_of_lookup.
    { rewrite <- Hzip. apply list_elem_of_lookup. exists i.
      apply lookup_zip_with_Some. eauto. }
    apply lookup_zip_with_Some in Hj as (m0 & id0 & [= -> ->] & ? & ?). eauto.
Qed.

Lemma selection_aligned (msgs ids sel : list str) (t : str) :
  Forall2 (fun m id => extract m = Ok (Some (id, t))) msgs ids ->
  (forall m, m ∈ sel -> m ∈ msgs) ->
  exists ids', Forall2 (fun m id => extract m = Ok (Some (id, t))) sel ids'.
Proof.
  intros Hall. induction sel as [|m sel IH]; intros Hsel.
  - by exists [].
  - destruct IH as (ids' & Hids'); [intros ? ?; apply Hsel; by right|].
    assert (m ∈ msgs) as (i & Hi)%list_elem_of_lookup by (apply Hsel; left).
    destruct (Forall2_lookup_l _ _ _ _ _ Hall Hi) as (id & _ & Hid).
    exists (id :: ids'). by constructor.
Qed.

(** X4: when a list of messages is classified, every non-empty list made
    of messages taken from it, in any order and with repetitions, is
    classified with the same pattern. *)
Theorem classified_selection (msgs sel : list str) (r : pattern_data) :
  analyze_messages msgs = Ok (Some r) ->
  sel <> [] ->
  (forall m, m ∈ sel -> m ∈ msgs) ->
  exists ids',
    analyze_messages sel = Ok (Some {| pattern := pattern r; identifiers := ids' |}).
Proof.
  intros [_ Hall]%analyze_messages_some Hne Hsel.
  destruct (selection_aligned _ _ _ _ Hall Hsel) as (ids' & Hids').
  exists ids'. by apply analyze_messages_some.
Qed.

(** X5: a message with a digit run, repeated any positive number of times,
    is classified: nothing asks that the identifiers differ. *)
Theorem repeated_message_classified (n : nat) (msg : str) :
  n <> 0 -> has_run isdecimal msg ->
  exists id t,
    extract msg = Ok (Some (id, t)) /\
    analyze_messages (replicate n msg) =
      Ok (Some {| pattern := t; identifiers := replicate n id |}).
Proof.
  intros Hn (id & Hid & _)%extract_run. eexists id, _. split; [done|].
  apply analyze_messages_some. simpl. split; [by destruct n|].
  clear Hn. induction n; simpl; by constructor.
Qed.

(** ** The pattern of a result *)

Lemma lstrip_head (s : str) (c : char) :
  head (lstrip s) = Some c -> isspace c = false.
Proof.
  induction s as [|x s IH]; simpl; [done|].
  destruct (isspace x) eqn:Hx; [done|]. by intros [= <-].
Qed.

Lemma lstrip_suffix (s : str) : lstrip s = [] \/ last (lstrip s) = last s.
Proof.
  induction s as [|x s IH]; simpl; [by left|].
  destruct (isspace x); [|by right].
  destruct IH as [?|IH]; [by left|].
  destruct s as [|y s']; [by left|]. right. by rewrite IH.
Qed.

Lemma lstrip_keeps (a x : str) (c : char) :
  head x = Some c -> isspace c = false ->
  exists a', lstrip (a ++ x) = a' ++ x.
Proof.
  intros Hx Hc. induction a as [|y a IH]; simpl.
  - exists []. destruct x as [|? x']; [done|]. simpl in *.
    injection Hx as ->. by rewrite Hc.
  - destruct (isspace y); [done|]. by exists (y :: a).
Qed.

Lemma strip_head (s : str) (c : char) :
  head (strip s) = Some c -> isspace c = false.
Proof.
  unfold strip, rstrip. rewrite head_reverse.
  destruct (lstrip_suffix (reverse (lstrip s))) as [-> | ->]; [done|].
  rewrite last_reverse. apply lstrip_head.
Qed.

Lemma strip_last (s : str) (c : char) :
  last (strip s) = Some c -> isspace c = false.
Proof. unfold strip, rstrip. rewrite last_reverse. apply lstrip_head. Qed.

(** A stretch of text that neither starts nor ends with whitespace
    survives [strip]. *)
Lemma strip_keeps (a x b : str) (c d : char) :
  head x = Some c -> isspace c = false ->
  last x = Some d -> isspace d = false ->
  exists a' b', strip (a ++ x ++ b) = a' ++ x ++ b'.
Proof.
  intros Hc Hcs Hd Hds. unfold strip, rstrip.
  destruct (lstrip_keeps a (x ++ b) c) as (a' & ->); [|done|].
  { destruct x; [done|]. done. }
  rewrite !reverse_app.
  destruct (lstrip_keeps (reverse b) (reverse x ++ reverse a') d) as (b' & Hb').
  { rewrite <- reverse_app, head_reverse, last_app. by rewrite Hd. }
  { done. }
  rewrite <- (assoc_L (++)), Hb'. rewrite !reverse_app, !reverse_involutive.
  exists a', (reverse b'). by rewrite <- (assoc_L (++)).
Qed.

Lemma sub_scan_has_replacement (lit repl s : str) :
  1 <= occurrences lit s ->
  exists a b, sub_scan lit repl 0 s = a ++ repl ++ b.
Proof.
  induction s as [|c s IH]; [simpl; lia|].
  cbn [occurrences sub_scan]. destruct (starts_with lit (c :: s)) eqn:Hs.
  - intros _. by exists [], (sub_scan lit repl (length lit - 1) s).
  - intros (a & b & ->)%IH. by exists (c :: a), b.
Qed.

Lemma extract_pattern_shape (msg id t : str) :
  extract msg = Ok (Some (id, t)) ->
  (exists a b, t = a ++ ID ++ b) /\
  (forall c, head t = Some c -> isspace c = false) /\
  (forall c, last t = Some c -> isspace c = false).
Proof.
  intros (_ & -> & pre & post & (Hmsg & Hid & _) & _)%extract_some_run.
  split; [|split; [apply strip_head|apply strip_last]].
  assert (sub_escaped id ID msg = sub_scan id ID 0 msg) as -> by by destruct id.
  destruct (sub_scan_has_replacement id ID msg) as (a & b & ->).
  { rewrite Hmsg. by apply occurrences_here. }
  by apply (strip_keeps a ID b 0x3C%N 0x3E%N).
Qed.

(** X6: the pattern of a result holds the placeholder ["<ID>"] and neither
    starts nor ends with a whitespace character. *)
Theorem pattern_has_placeholder (msgs : list str) (r : pattern_data) :
  analyze_messages msgs = Ok (Some r) ->
  1 <= occurrences ID (pattern r) /\
  (forall c, head (pattern r) = Some c -> isspace c = false) /\
  (forall c, last (pattern r) = Some c -> isspace c = false).
Proof.
  intros [Hne Hall]%analyze_messages_some.
  destruct Hall as [|m id msgs' ids' Hm _]; [done|].
  apply extract_pattern_shape in Hm as ((a & b & ->) & Hhead & Hlast).
  split_and!; [|done..]. by apply occurrences_here.
Qed.

(** ** The format summary of the identifiers of a result *)

Lemma in_ranges_included (t1 t2 : list (N * N)) :
  forallb (fun r => existsb (fun r' => (fst r' <=? fst r)%N && (snd r <=? snd r')%N) t2)
          t1 = true ->
  forall c, in_ranges t1 c = true -> in_ranges t2 c = true.
Proof.
  intros Hincl c. unfold in_ranges. rewrite !existsb_exists.
  intros ([lo hi] & Hr & [Hlo Hhi]%andb_true_iff).
  rewrite forallb_forall in Hincl. apply Hincl, existsb_exists in Hr.
  destruct Hr as ([lo' hi'] & Hr' & [Hlo' Hhi']%andb_true_iff).
  exists (lo', hi'). split; [done|]. simpl in *.
  apply andb_true_iff. rewrite !N.leb_le in *. lia.
Qed.

(** Every character [\d] matches is a digit for [str.isdigit]. *)
Lemma decimal_isdigit (c : char) : isdecimal c = true -> isdigit c = true.
Proof. apply in_ranges_included. by vm_compute. Qed.

Lemma label_of_decimal (id : str) :
  id <> [] -> forallb isdecimal id = true ->
  label id = format_nat (length id) ++ u "-digit numeric".
Proof.
  intros Hne Hdig. unfold label. rewrite (bool_decide_eq_true_2 _ Hne). simpl.
  assert (forallb isdigit id = true) as ->; [|done].
  rewrite forallb_forall in Hdig |- *. intros c Hc. by apply decimal_isdigit, Hdig.
Qed.

Lemma summary_of_ext (lbl lbl' : str -> str) (ids : list str) (out : str) :
  (forall id, id ∈ ids -> lbl id = lbl' id) ->
  summary_of lbl ids out -> summary_of lbl' ids out.
Proof.
  intros Heq (labels & Hsorted & Hin & ->). exists labels. split_and!; [done| |done].
  intros x. rewrite Hin. split; intros (id & Hid & ->); exists id;
    (split; [done|]); [|symmetry]; by apply Heq.
Qed.

Lemma analyze_identifiers_decimal (msgs : list str) (r : pattern_data) :
  analyze_messages msgs = Ok (Some r) ->
  identifiers r <> [] /\
  forall id, id ∈ identifiers r -> id <> [] /\ forallb isdecimal id = true.
Proof.
  intros [Hne Hall]%analyze_messages_some. split.
  - destruct Hall; done.
  - intros id (i & Hi)%list_elem_of_lookup.
    destruct (Forall2_lookup_r _ _ _ _ _ Hall Hi) as (m & _ & Hm).
    by apply extract_identifier_digits in Hm.
Qed.

Lemma identifiers_summary_numeric (msgs : list str) (r : pattern_data) :
  analyze_messages msgs = Ok (Some r) ->
  summary_of (fun id => format_nat (length id) ++ u "-digit numeric")
    (identifiers r) (get_identifier_type (identifiers r)).
Proof.
  intros [_ Hdig]%analyze_identifiers_decimal.
  apply (summary_of_ext label); [|apply get_identifier_type_summary].
  intros id [? ?]%Hdig. by apply label_of_decimal.
Qed.

(** X7: every identifier of a result satisfies [str.isdigit], so the format
    summary of the identifiers of a result is made of labels
    ["<N>-digit numeric"] only. *)
Theorem result_summary_numeric (msgs : list str) (r : pattern_data) :
  analyze_messages msgs = Ok (Some r) ->
  (forall id, id ∈ identifiers r -> str_isdigit id = true) /\
  summary_of (fun id => format_nat (length id) ++ u "-digit numeric")
    (identifiers r) (get_identifier_type (identifiers r)).
Proof.
  intros Hr. split; [|by apply (identifiers_summary_numeric msgs)].
  apply analyze_identifiers_decimal in Hr as [_ Hdig].
  intros id [Hne Hid]%Hdig. rewrite str_isdigit_nonempty.
  rewrite (bool_decide_eq_true_2 _ Hne). simpl.
  rewrite forallb_forall in Hid |- *. intros c Hc. by apply decimal_isdigit, Hid.
Qed.

(** X8: when the identifiers of a result all have length [n], their format
    summary is the single label ["<n>-digit numeric"]. *)
Theorem result_summary_same_length (msgs : list str) (r : pattern_data) (n : nat) :
  analyze_messages msgs = Ok (Some r) ->
  (forall id, id ∈ identifiers r -> length id = n) ->
  get_identifier_type (identifiers r) = format_nat n ++ u "-digit numeric".
Proof.
  intros Hr Hlen.
  apply (summary_of_unique
           (fun id => format_nat (length id) ++ u "-digit numeric") (identifiers r));
    [by apply (identifiers_summary_numeric msgs)|].
  apply analyze_identifiers_decimal in Hr as [Hne _].
  exists [format_nat n ++ u "-digit numeric"]. split_and!; [repeat constructor| |done].
  intros x. rewrite list_elem_of_singleton. split.
  - intros ->. destruct (identifiers r) as [|id ids]; [done|].
    exists id. split; [left|]. rewrite (Hlen id); [done|left].
  - intros (id & Hid & ->). by rewrite (Hlen id).
Qed.

Lemma label_nonempty (id : str) : label id <> [].
Proof.
  unfold label.
  destruct (_ && _); [|destruct (_ && _)];
    [intros [_ ?]%app_eq_nil; done..|done].
Qed.

(** X9: the format summary is the empty string exactly when there is no
    identifier. *)
Theorem summary_empty_only_for_no_identifiers (ids : list str) :
  get_identifier_type ids = [] <-> ids = [].
Proof.
  split; [|by intros ->].
  destruct ids as [|id ids]; [done|]. intros Hempty. exfalso.
  unfold get_identifier_type in Hempty.
  pose proof (sorted_Permutation (formats_loop (id :: ids) [])) as Hperm.
  assert (label id ∈ sorted (formats_loop (id :: ids) [])) as Hin.
  { rewrite Hperm. apply elem_of_formats_loop. exists id. split; [left|done]. }
  destruct (sorted (formats_loop (id :: ids) [])) as [|p rest] eqn:E.
  { by apply elem_of_nil in Hin. }
  assert (p <> []) as Hp.
  { assert (p ∈ formats_loop (id :: ids) []) as (id' & _ & ->)%elem_of_formats_loop
      by (rewrite <- Hperm; left).
    apply label_nonempty. }
  destruct rest; simpl in Hempty; [done|].
  by apply app_eq_nil in Hempty as [? _].
Qed.

(** X10: the format summary depends only on which identifiers occur, not
    on their order nor on how often each occurs. *)
Theorem summary_depends_on_identifier_set (ids ids' : list str) :
  (forall id, id ∈ ids <-> id ∈ ids') ->
  get_identifier_type ids = get_identifier_type ids'.
Proof.
  intros Hsame. apply (summary_of_unique label ids).
  - apply get_identifier_type_summary.
  - destruct (get_identifier_type_summary ids') as (labels & Hsorted & Hin & Hout).
    exists labels. split_and!; [done| |done].
    intros x. rewrite Hin. by setoid_rewrite Hsame.
Qed.

(** ** Validation *)

(** X11: [validate_traffic_file] returns the empty list exactly when the
    four required columns are among the columns of the table, and [main]
    goes past its validation exactly when they are and the tags table has
    the column ["Tag values"]. *)
Theorem validation_gate (traffic_columns tags_columns : list str) :
  (validate_traffic_file traffic_columns = [] <->
   forall col, col ∈ required -> col ∈ traffic_columns) /\
  (validation_error traffic_columns tags_columns = None <->
   (forall col, col ∈ required -> col ∈ traffic_columns) /\
   u "Tag values" ∈ tags_columns).
Proof.
  assert (validate_traffic_file traffic_columns = [] <->
          forall col, col ∈ required -> col ∈ traffic_columns) as Hmissing.
  { unfold validate_traffic_file. split.
    - intros Hnil col Hcol. destruct (decide (col ∈ traffic_columns)) as [|Hno]; [done|].
      assert (col ∈ filter (fun col => col ∉ traffic_columns) required) as Hin
        by by apply list_elem_of_filter.
      rewrite Hnil in Hin. by apply elem_of_nil in Hin.
    - intros Hall. destruct (filter _ required) as [|col l] eqn:E; [done|].
      assert (col ∈ filter (fun col => col ∉ traffic_columns) required) as
        [Hno Hreq]%list_elem_of_filter by (rewrite E; left).
      by destruct Hno; apply Hall. }
  split; [done|]. rewrite <- Hmissing. unfold validation_error, validate_tags_file.
  destruct (decide (validate_traffic_file traffic_columns = [])) as [Hnil|Hsome].
  - rewrite (bool_decide_eq_true_2 _ Hnil). simpl.
    case_bool_decide as Htags; simpl.
    + split; [done|]. by intros [_ ?].
    + split; [|done]. intros _. by split.
  - rewrite (bool_decide_eq_false_2 _ Hsome). simpl. split; [done|]. by intros [? _].
Qed.

(** ** The detailed table *)

Section DetailedFacts.
Variable lower : str -> str.
Variable cell : Type.
Variable astype_str : cell -> str.

#[local] Abbreviation records_for := (Main.records_for lower cell astype_str).
#[local] Abbreviation messages_for := (Main.messages_for lower astype_str).
#[local] Abbreviation number_of := (Main.number_of lower astype_str).
#[local] Abbreviation detailed_for := (Main.detailed_for lower cell astype_str).
#[local] Abbreviation detailed_loop := (Main.detailed_loop lower cell astype_str).
#[local] Abbreviation detailed_results := (Main.detailed_results lower cell astype_str).
#[local] Abbreviation detailed_from := (Main.detailed_from astype_str).
#[local] Abbreviation as_str := (Main.as_str cell astype_str).

Lemma records_of_as_str (traffic : list (traffic_row cell)) (number : str) :
  records_of lower (map as_str traffic) number = map as_str (records_for traffic number).
Proof.
  unfold records_of, Main.records_for.
  induction traffic as [|r traffic IH]; [done|].
  simpl. rewrite !filter_cons. simpl. case_decide; simpl; by rewrite IH.
Qed.

Lemma elem_of_records_for (traffic : list (traffic_row cell)) (number : str)
    (r : traffic_row cell) :
  r ∈ records_for traffic number <-> number_of r = number /\ r ∈ traffic.
Proof. unfold Main.records_for, Main.number_of. by rewrite list_elem_of_filter. Qed.

(** With an identifier for each row from index [idx] on, the index
    accesses of the loop succeed. *)
Lemma detail_rows_aligned (rows : list (traffic_row cell)) (count : nat)
    (pd : pattern_data) (before ids : list str) :
  identifiers pd = before ++ ids ->
  Forall2 (fun r id => extract (astype_str (t_content r)) = Ok (Some (id, pattern pd)))
    rows ids ->
  exists out,
    detail_rows cell rows (length before) count pd = Ok out /\
    Forall2 (fun r d => detailed_from r count d) rows out.
Proof.
  intros Hids Hall. revert before Hids.
  induction Hall as [|r id rows ids Hr _ IH]; intros before Hids; simpl.
  - by exists [].
  - unfold index. rewrite Hids, list_lookup_middle by done. simpl.
    destruct (IH (before ++ [id])) as (out & Hout & Hall').
    { by rewrite <- (assoc_L (++)). }
    rewrite length_app, Nat.add_1_r in Hout. rewrite Hout. simpl.
    eexists. split; [done|]. constructor; [|done].
    unfold Main.detailed_from. simpl. by rewrite Hr.
Qed.

(** One pass of the loop raises nothing: it appends nothing when the
    messages of the number are not classified, and the detailed rows of all
    its traffic rows, in their order, when they are. *)
Lemma detailed_for_rows (traffic : list (traffic_row cell)) (number : str) :
  exists out,
    detailed_for traffic number = Ok out /\
    ((analyze_messages (messages_for traffic number) = Ok None /\ out = []) \/
     ((exists pd, analyze_messages (messages_for traffic number) = Ok (Some pd)) /\
      Forall2 (fun r d => detailed_from r (length (records_for traffic number)) d)
        (records_for traffic number) out)).
Proof.
  unfold Main.detailed_for. fold (messages_for traffic number).
  destruct (analyze_messages_returns (messages_for traffic number)) as [[pd|] Hpd];
    rewrite Hpd; simpl; [|exists []; split; [done|by left]].
  pose proof Hpd as [_ Hall]%analyze_messages_some.
  assert (length (identifiers pd) = length (messages_for traffic number)) as Hlen
    by (symmetry; by eapply Forall2_length).
  apply Nat.eqb_eq in Hlen as ->.
  unfold Main.messages_for in Hall. rewrite Forall2_fmap_l in Hall.
  destruct (detail_rows_aligned (records_for traffic number)
              (length (records_for traffic number)) pd [] (identifiers pd))
    as (out & Hout & Hrows); [done|done|].
  exists out. split; [done|]. right. split; [by exists pd|done].
Qed.

Lemma detailed_loop_blocks (traffic : list (traffic_row cell)) (numbers : list str)
    (acc : list (detailed_row cell)) :
  exists blocks,
    Forall2 (fun number rows => detailed_for traffic number = Ok rows) numbers blocks /\
    detailed_loop traffic numbers acc = Ok (acc ++ mjoin blocks).
Proof.
  revert acc. induction numbers as [|number numbers IH]; intros acc; simpl.
  - exists []. split; [constructor|]. simpl. by rewrite app_nil_r.
  - destruct (detailed_for_rows traffic number) as (rows & Hrows & _).
    rewrite Hrows. simpl. destruct (IH (acc ++ rows)) as (blocks & Hblocks & ->).
    exists (rows :: blocks). split; [by constructor|].
    simpl. by rewrite <- (assoc_L (++)).
Qed.

Lemma detailed_for_number (traffic : list (traffic_row cell)) (number : str)
    (rows : list (detailed_row cell)) (d : detailed_row cell) :
  detailed_for traffic number = Ok rows -> d ∈ rows ->
  exists r,
    r ∈ traffic /\ number_of r = number /\
    detailed_from r (length (records_for traffic number)) d.
Proof.
  intros Hrows (i & Hi)%list_elem_of_lookup.
  destruct (detailed_for_rows traffic number) as (out & Hout & Hcases).
  rewrite Hrows in Hout. injection Hout as <-.
  destruct Hcases as [[_ ->]|[_ Hall]]; [done|].
  destruct (Forall2_lookup_r _ _ _ _ _ Hall Hi) as (r & Hr & Hd).
  exists r. apply list_elem_of_lookup_2, elem_of_records_for in Hr as [? ?]. done.
Qed.

(** Rows filed under distinct keys, block by block: selecting a key gives
    its block. *)
Lemma filter_blocks {A} (key : A -> str) (numbers : list str)
    (blocks : list (list A)) (number : str) :
  Forall2 (fun n b => forall d, d ∈ b -> key d = n) numbers blocks ->
  NoDup numbers ->
  (number ∉ numbers -> filter (fun d => key d = number) (mjoin blocks) = []) /\
  (forall i b, numbers !! i = Some number -> blocks !! i = Some b ->
     filter (fun d => key d = number) (mjoin blocks) = b).
Proof.
  induction 1 as [|n b0 numbers blocks Hb0 _ IH]; intros Hnd.
  { split; [done|]. by intros []. }
  apply NoDup_cons in Hnd as [Hn Hnd]. destruct (IH Hnd) as [IH1 IH2].
  simpl. rewrite filter_app.
  assert (n = number -> filter (fun d => key d = number) b0 = b0) as Hall.
  { intros ->. clear -Hb0. induction b0 as [|d b0 IHb]; [done|].
    rewrite filter_cons, decide_True by (apply Hb0; left).
    f_equal. apply IHb. intros ? ?. apply Hb0. by right. }
  assert (n <> number -> filter (fun d => key d = number) b0 = []) as Hnone.
  { intros Hne. clear -Hb0 Hne. induction b0 as [|d b0 IHb]; [done|].
    rewrite filter_cons, decide_False.
    - apply IHb. intros ? ?. apply Hb0. by right.
    - rewrite (Hb0 d); [done|left]. }
  split.
  - intros Hnot. rewrite not_elem_of_cons in Hnot. destruct Hnot as [Hne Hnot].
    rewrite Hnone by done. by apply IH1.
  - intros [|i] b; simpl.
    + intros [= ->] [= ->]. rewrite Hall by done. rewrite IH1 by done.
      by rewrite app_nil_r.
    + intros Hi Hb. rewrite Hnone, (IH2 i b) by first [done|
        intros ->; apply Hn; by eapply list_elem_of_lookup_2].
      done.
Qed.

End DetailedFacts.

Lemma NoDup_candidates (lower : str -> str) (traffic : list row) (tags : list str) :
  NoDup (candidates lower traffic tags).
Proof.
  unfold candidates. apply NoDup_filter, NoDup_fmap_fst.
  - intros number n1 n2 [_ H1%elem_of_map_to_list]%list_elem_of_filter
      [_ H2%elem_of_map_to_list]%list_elem_of_filter. congruence.
  - apply NoDup_filter, NoDup_map_to_list.
Qed.

Section DetailedTable.
Variable lower : str -> str.
Variable cell : Type.
Variable astype_str : cell -> str.

#[local] Abbreviation records_for := (Main.records_for lower cell astype_str).
#[local] Abbreviation messages_for := (Main.messages_for lower astype_str).
#[local] Abbreviation number_of := (Main.number_of lower astype_str).
#[local] Abbreviation detailed_results := (Main.detailed_results lower cell astype_str).
#[local] Abbreviation detailed_from := (Main.detailed_from astype_str).
#[local] Abbreviation candidates_of traffic tags :=
  (candidates lower (map (Main.as_str cell astype_str) traffic) (map astype_str tags)).

Lemma candidate_count (traffic : list (traffic_row cell)) (tags : list cell)
    (number : str) :
  number ∈ candidates_of traffic tags <->
  MIN_OCCURRENCES <= length (records_for traffic number) /\
  ~ (exists t, t ∈ tags /\ lower (strip (astype_str t)) = number).
Proof.
  rewrite elem_of_candidates, elem_of_known_numbers, records_of_as_str, length_fmap.
  split; intros [Hn Hknown]; (split; [done|]).
  - intros (t & Ht & Heq). apply Hknown. exists (astype_str t).
    split; [|done]. apply list_elem_of_fmap. eauto.
  - intros (t' & (t & -> & Ht)%list_elem_of_fmap & Heq). apply Hknown. eauto.
Qed.

(** X12: every row of [detailed_results] is the detailed row of a traffic
    row: it has its four cells, the number of traffic rows with the same
    lower-cased number as count, which is at least [MIN_OCCURRENCES], and
    the identifier and pattern of its own content; and no entry of the tags
    table, stripped and lower-cased, is equal to the lower-cased number of
    the row. *)
Theorem detailed_rows_sound (traffic : list (traffic_row cell)) (tags : list cell)
    (rows : list (detailed_row cell)) :
  detailed_results traffic tags = Ok rows ->
  forall d, d ∈ rows ->
    exists r,
      r ∈ traffic /\
      detailed_from r (length (records_for traffic (number_of r))) d /\
      MIN_OCCURRENCES <= d_count d /\
      ~ (exists t, t ∈ tags /\ lower (strip (astype_str t)) = number_of r).
Proof.
  unfold Main.detailed_results.
  destruct (detailed_loop_blocks lower cell astype_str traffic
              (candidates_of traffic tags) []) as (blocks & Hblocks & ->).
  simpl. intros [= <-].
  intros d (b & Hd & (i & Hi)%list_elem_of_lookup)%list_elem_of_join.
  destruct (Forall2_lookup_r _ _ _ _ _ Hblocks Hi) as (number & Hnumber & Hb).
  destruct (detailed_for_number _ _ _ _ _ _ _ Hb Hd) as (r & Hr & <- & Hfrom).
  apply list_elem_of_lookup_2, candidate_count in Hnumber as [Hcount Hknown].
  exists r. split_and!; [done..| |done].
  destruct Hfrom as (_ & _ & _ & _ & -> & _). done.
Qed.

(** X13: for every number, the rows of [detailed_results] under that number
    are the detailed rows of all its traffic rows, in the order of the
    traffic table, when the number is a candidate whose messages are
    classified, and there are none otherwise. *)
Theorem detailed_rows_all_or_nothing (traffic : list (traffic_row cell))
    (tags : list cell) (number : str) :
  exists rows,
    detailed_results traffic tags = Ok rows /\
    let mine := filter (fun d => lower (astype_str (d_destination d)) = number) rows in
    let classified :=
      number ∈ candidates_of traffic tags /\
      exists pd, analyze_messages (messages_for traffic number) = Ok (Some pd) in
    (classified ->
     Forall2 (fun r d => detailed_from r (length (records_for traffic number)) d)
       (records_for traffic number) mine) /\
    (~ classified -> mine = []).
Proof.
  unfold Main.detailed_results.
  destruct (detailed_loop_blocks lower cell astype_str traffic
              (candidates_of traffic tags) []) as (blocks & Hblocks & ->).
  eexists. split; [done|]. simpl.
  destruct (filter_blocks (fun d => lower (astype_str (d_destination d)))
              (candidates_of traffic tags) blocks number) as [Hout Hin].
  { eapply Forall2_impl; [done|]. intros n b Hb d Hd. simpl in Hb.
    destruct (detailed_for_number _ _ _ _ _ _ _ Hb Hd) as (r & _ & <- & Hfrom).
    destruct Hfrom as (_ & -> & _). done. }
  { apply NoDup_candidates. }
  split.
  - intros [(i & Hi)%list_elem_of_lookup (pd & Hpd)].
    destruct (Forall2_lookup_l _ _ _ _ _ Hblocks Hi) as (b & Hbi & Hb).
    rewrite (Hin i b Hi Hbi).
    destruct (detailed_for_rows lower cell astype_str traffic number)
      as (out & Hout' & Hcases).
    rewrite Hb in Hout'. injection Hout' as <-.
    destruct Hcases as [[Hnone _]|[_ Hall]]; [congruence|done].
  - intros Hnot.
    destruct (decide (number ∈ candidates_of traffic tags)) as [Hcand|]; [|by apply Hout].
    pose proof Hcand as (i & Hi)%list_elem_of_lookup.
    destruct (Forall2_lookup_l _ _ _ _ _ Hblocks Hi) as (b & Hbi & Hb).
    rewrite (Hin i b Hi Hbi).
    destruct (detailed_for_rows lower cell astype_str traffic number)
      as (out & Hout' & Hcases).
    rewrite Hb in Hout'. injection Hout' as <-.
    destruct Hcases as [[_ ->]|[Hpd _]]; [done|]. by destruct Hnot.
Qed.

(** X14: [detailed_results] is empty, and [main] reports that no pattern
    was found, exactly when the messages of no candidate are classified. *)
Theorem no_patterns_found (traffic : list (traffic_row cell)) (tags : list cell) :
  detailed_results traffic tags = Ok [] <->
  forall number, number ∈ candidates_of traffic tags ->
    analyze_messages (messages_for traffic number) = Ok None.
Proof.
  unfold Main.detailed_results.
  destruct (detailed_loop_blocks lower cell astype_str traffic
              (candidates_of traffic tags) []) as (blocks & Hblocks & ->).
  simpl. split.
  - intros [= Hnil%join_nil] number Hcand.
    pose proof Hcand as (i & Hi)%list_elem_of_lookup.
    destruct (Forall2_lookup_l _ _ _ _ _ Hblocks Hi) as (b & Hbi & Hb).
    rewrite Forall_forall in Hnil.
    pose proof (Hnil b (list_elem_of_lookup_2 _ _ _ Hbi)) as ->.
    destruct (detailed_for_rows lower cell astype_str traffic number)
      as (out & Hout & Hcases).
    rewrite Hb in Hout. injection Hout as <-.
    destruct Hcases as [[? _]|[_ Hall]]; [done|].
    apply candidate_count in Hcand as [Hcount _].
    apply Forall2_length in Hall. simpl in Hall. rewrite Hall in Hcount.
    unfold MIN_OCCURRENCES in Hcount. lia.
  - intros Hnone. do 2 f_equal. apply join_nil, Forall_forall.
    intros b (i & Hi)%list_elem_of_lookup.
    destruct (Forall2_lookup_r _ _ _ _ _ Hblocks Hi) as (number & Hnumber & Hb).
    destruct (detailed_for_rows lower cell astype_str traffic number)
      as (out & Hout & Hcases).
    rewrite Hb in Hout. injection Hout as <-.
    destruct Hcases as [[_ ?]|[(pd & Hpd) _]]; [done|].
    rewrite (Hnone number) in Hpd; [done|]. by eapply list_elem_of_lookup_2.
Qed.

End DetailedTable.

(** ** Messages that differ in their identifier only *)

Lemma short_runs (s id : str) :
  Forall (fun x => length x < length id) (findall_digits s) ->
  id <> [] ->
  forall a r b, s = a ++ r ++ b -> forallb isdecimal r = true -> length r < length id.
Proof.
  intros Hshort Hid a r b -> Hr.
  destruct (decide (r = [])) as [->|Hne].
  { destruct id; [done|]. simpl. lia. }
  destruct (findall_scan_covers false a r b Hne Hr) as [(x & Hx & Hlen)|[? _]]; [|done].
  rewrite Forall_forall in Hshort. apply Hshort in Hx. lia.
Qed.

(** Where no stretch of digits is as long as the literal, the scan copies
    the text. *)
Lemma sub_scan_quiet (id repl s rest : str) :
  id <> [] -> forallb isdecimal id = true ->
  (forall a r b, s = a ++ r ++ b -> forallb isdecimal r = true -> length r < length id) ->
  (rest = [] \/ forall c, last s = Some c -> isdecimal c = false) ->
  sub_scan id repl 0 (s ++ rest) = s ++ sub_scan id repl 0 rest.
Proof.
  intros Hid Hdig. induction s as [|c s IH]; intros Hshort Hend; [done|].
  simpl app. rewrite sub_scan_later.
  - f_equal. apply IH.
    + intros a r b -> Hr. by apply (Hshort (c :: a) r b).
    + destruct Hend as [?|Hlast]; [by left|right].
      intros z Hz. apply Hlast. by destruct s.
  - destruct (starts_with id (c :: s ++ rest)) eqn:Hs; [exfalso|done].
    apply starts_with_app in Hs as (x & Hx).
    change (c :: s ++ rest) with ((c :: s) ++ rest) in Hx.
    apply app_eq_inv in Hx as [(k & Hk & _)|(k & Hk & Hrest)].
    + (* the literal lies in [s] *)
      pose proof (Hshort [] id k Hk Hdig). lia.
    + (* the literal runs past the end of [s] *)
      destruct Hend as [->|Hlast].
      * destruct k; [|done]. rewrite app_nil_r in Hk.
        pose proof (Hshort [] id [] (eq_sym (eq_trans (app_nil_r _) Hk)) Hdig). lia.
      * destruct (last (c :: s)) as [z|] eqn:Hz; [|by apply last_None in Hz].
        pose proof (Hlast z eq_refl) as Hnon.
        assert (z ∈ id) as Hin.
        { apply last_Some in Hz as (s0 & Hs0). rewrite Hk, Hs0. set_solver. }
        rewrite forallb_forall in Hdig. apply list_elem_of_In, Hdig in Hin. congruence.
Qed.

Lemma digit_prefix_exact (d rest : str) :
  forallb isdecimal d = true ->
  (forall c, head rest = Some c -> isdecimal c = false) ->
  digit_prefix (d ++ rest) = d.
Proof.
  intros Hd Hrest. induction d as [|c d IH]; simpl.
  - destruct rest as [|c rest]; [done|]. simpl. by rewrite (Hrest c).
  - simpl in Hd. apply andb_true_iff in Hd as [-> Hd]. f_equal. by apply IH.
Qed.

(** A run longer than every other run of the message is the identifier. *)
Lemma longest_run_unique (pre id post id' : str) :
  maximal_run isdecimal (pre ++ id ++ post) pre id post ->
  Forall (fun x => length x < length id) (findall_digits pre) ->
  Forall (fun x => length x < length id) (findall_digits post) ->
  leftmost_longest isdecimal (pre ++ id ++ post) id' ->
  id' = id.
Proof.
  intros Hrun Hpre Hpost (pre' & post' & Hrun' & Hbest).
  destruct (Hbest pre id post Hrun) as [Hlen _].
  destruct Hrun as (_ & Hid & Hdig & Hleft & Hright).
  destruct Hrun' as (Heq & Hid' & Hdig' & Hleft' & Hright').
  pose proof (short_runs pre id Hpre Hid) as Hpre'.
  pose proof (short_runs post id Hpost Hid) as Hpost'.
  symmetry in Heq.
  apply app_eq_inv in Heq as [(k & -> & Hk)|(k & -> & Hk)].
  - apply app_eq_inv in Hk as [(k' & Hk' & Hrest)|(k' & -> & Hrest)].
    + destruct k as [|c k].
      * simpl in *. subst k'.
        rewrite <- (digit_prefix_exact id post Hdig Hright).
        rewrite <- (digit_prefix_exact id' post' Hdig' Hright'). by rewrite Hrest.
      * exfalso.
        destruct (last (c :: k)) as [z|] eqn:Hz; [|by apply last_None in Hz].
        assert (isdecimal z = false) as Hnon.
        { apply Hleft'. by rewrite last_app, Hz. }
        assert (z ∈ id) as Hin.
        { apply last_Some in Hz as (s0 & Hs0). rewrite Hk', Hs0. set_solver. }
        rewrite forallb_forall in Hdig. apply list_elem_of_In, Hdig in Hin. congruence.
    + exfalso. pose proof (Hpost' k' id' post' Hrest Hdig'). lia.
  - destruct k as [|c k].
    + rewrite app_nil_r in *. simpl in Hk.
      rewrite <- (digit_prefix_exact id post Hdig Hright).
      rewrite <- (digit_prefix_exact id' post' Hdig' Hright'). by rewrite Hk.
    + exfalso. apply app_eq_inv in Hk as [(k' & Hk' & _)|(k' & Hk' & _)].
      * destruct (last (c :: k)) as [z|] eqn:Hz; [|by apply last_None in Hz].
        assert (isdecimal z = false) as Hnon.
        { apply Hleft. by rewrite last_app, Hz. }
        assert (z ∈ id') as Hin.
        { apply last_Some in Hz as (s0 & Hs0). rewrite Hk', Hs0. set_solver. }
        rewrite forallb_forall in Hdig'. apply list_elem_of_In, Hdig' in Hin. congruence.
      * pose proof (Hpre' pre' id' k'). rewrite Hk' in H.
        specialize (H eq_refl Hdig'). lia.
Qed.

Lemma extract_framed (pre id post : str) :
  maximal_run isdecimal (pre ++ id ++ post) pre id post ->
  Forall (fun x => length x < length id) (findall_digits pre) ->
  Forall (fun x => length x < length id) (findall_digits post) ->
  extract (pre ++ id ++ post) = Ok (Some (id, strip (pre ++ ID ++ post))).
Proof.
  intros Hrun Hpre Hpost.
  destruct (extract_run (pre ++ id ++ post)) as (id' & Hex & Hll).
  { by exists pre, id, post. }
  rewrite (longest_run_unique pre id post id' Hrun Hpre Hpost Hll) in Hex.
  rewrite Hex. do 4 f_equal.
  destruct Hrun as (_ & Hid & Hdig & Hleft & Hright).
  assert (sub_escaped id ID (pre ++ id ++ post) = sub_scan id ID 0 (pre ++ id ++ post))
    as -> by by destruct id.
  rewrite sub_scan_quiet; [|done|done|by apply short_runs|by right].
  rewrite sub_scan_here by done.
  rewrite <- (app_nil_r post) at 1.
  rewrite sub_scan_quiet; [|done|done|by apply short_runs|by left].
  by rewrite app_nil_r.
Qed.

(** X16: a message made of a text, a run of digits and a text, where the
    run is maximal and longer than every run of digits of the two texts,
    has that run as its identifier, and as its pattern the two texts around
    ["<ID>"], stripped. *)
Theorem framed_message_extracted (pre id post : str) :
  maximal_run isdecimal (pre ++ id ++ post) pre id post ->
  Forall (fun x => length x < length id) (findall_digits pre) ->
  Forall (fun x => length x < length id) (findall_digits post) ->
  extract (pre ++ id ++ post) = Ok (Some (id, strip (pre ++ ID ++ post))).
Proof. apply extract_framed. Qed.

(** X17: messages that are the same two texts around runs of digits, each
    run maximal and longer than every run of digits of the two texts, are
    classified together: the pattern is the two texts around ["<ID>"],
    stripped, and the identifiers are the runs, in the order of the
    messages. *)
Theorem framed_messages_classified (pre post : str) (ids : list str) :
  ids <> [] ->
  Forall (fun id =>
            maximal_run isdecimal (pre ++ id ++ post) pre id post /\
            Forall (fun x => length x < length id) (findall_digits pre) /\
            Forall (fun x => length x < length id) (findall_digits post)) ids ->
  analyze_messages (map (fun id => pre ++ id ++ post) ids) =
    Ok (Some {| pattern := strip (pre ++ ID ++ post); identifiers := ids |}).
Proof.
  intros Hne Hids. apply analyze_messages_some. simpl. split.
  - by destruct ids.
  - rewrite Forall2_fmap_l. clear Hne.
    induction Hids as [|id ids (Hrun & Hpre & Hpost) _ IH]; constructor; [|done].
    by apply extract_framed.
Qed.

(** ** Instances *)

Lemma classification_order_independent_witness :
  [u "OTP 5521 sent"; u "OTP 7734 sent"; u "OTP 9 sent"] ≡ₚ
    [u "OTP 7734 sent"; u "OTP 5521 sent"; u "OTP 9 sent"] /\
  ((analyze_messages [u "OTP 5521 sent"; u "OTP 7734 sent"; u "OTP 9 sent"] = Ok None ->
    analyze_messages [u "OTP 7734 sent"; u "OTP 5521 sent"; u "OTP 9 sent"] = Ok None) /\
   (forall r,
      analyze_messages [u "OTP 5521 sent"; u "OTP 7734 sent"; u "OTP 9 sent"] = Ok (Some r) ->
      exists ids',
        analyze_messages [u "OTP 7734 sent"; u "OTP 5521 sent"; u "OTP 9 sent"] =
          Ok (Some {| pattern := pattern r; identifiers := ids' |}) /\
        zip [u "OTP 7734 sent"; u "OTP 5521 sent"; u "OTP 9 sent"] ids' ≡ₚ
          zip [u "OTP 5521 sent"; u "OTP 7734 sent"; u "OTP 9 sent"] (identifiers r) /\
        (forall i m id,
           [u "OTP 7734 sent"; u "OTP 5521 sent"; u "OTP 9 sent"] !! i = Some m ->
           ids' !! i = Some id ->
           exists j,
             [u "OTP 5521 sent"; u "OTP 7734 sent"; u "OTP 9 sent"] !! j = Some m /\
             identifiers r !! j = Some id))).
Proof.
  assert ([u "OTP 5521 sent"; u "OTP 7734 sent"; u "OTP 9 sent"] ≡ₚ
          [u "OTP 7734 sent"; u "OTP 5521 sent"; u "OTP 9 sent"]) as H by apply perm_swap.
  split; [exact H|]. exact (classification_order_independent _ _ H).
Defined.

(** On that input the identifiers follow their messages. *)
Example reordered_identifiers :
  analyze_messages [u "OTP 5521 sent"; u "OTP 7734 sent"; u "OTP 9 sent"] =
    Ok (Some {| pattern := u "OTP <ID> sent";
                identifiers := [u "5521"; u "7734"; u "9"] |}) /\
  analyze_messages [u "OTP 7734 sent"; u "OTP 5521 sent"; u "OTP 9 sent"] =
    Ok (Some {| pattern := u "OTP <ID> sent";
                identifiers := [u "7734"; u "5521"; u "9"] |}).
Proof. by vm_compute. Qed.

Lemma classified_selection_witness :
  analyze_messages [u "OTP 5521 sent"; u "OTP 7734 sent"] =
    Ok (Some {| pattern := u "OTP <ID> sent"; identifiers := [u "5521"; u "7734"] |}) /\
  [u "OTP 7734 sent"; u "OTP 7734 sent"; u "OTP 5521 sent"] <> [] /\
  exists ids',
    analyze_messages [u "OTP 7734 sent"; u "OTP 7734 sent"; u "OTP 5521 sent"] =
      Ok (Some {| pattern := u "OTP <ID> sent"; identifiers := ids' |}).
Proof.
  split; [by vm_compute|]. split; [done|].
  apply (classified_selection [u "OTP 5521 sent"; u "OTP 7734 sent"] _
           {| pattern := u "OTP <ID> sent"; identifiers := [u "5521"; u "7734"] |});
    [by vm_compute|done|].
  intros m Hm. repeat (apply elem_of_cons in Hm as [->|Hm]);
    [right; left|right; left|left|by apply elem_of_nil in Hm].
Defined.

Lemma repeated_message_classified_witness :
  3 <> 0 /\ has_run isdecimal (u "Code 111") /\
  exists id t,
    extract (u "Code 111") = Ok (Some (id, t)) /\
    analyze_messages (replicate 3 (u "Code 111")) =
      Ok (Some {| pattern := t; identifiers := replicate 3 id |}).
Proof.
  split; [done|]. split; [run_found|].
  apply (repeated_message_classified 3 (u "Code 111")); [done|run_found].
Defined.

Lemma pattern_has_placeholder_witness :
  analyze_messages [u " OTP 5521 sent "; u "OTP 7734 sent"] =
    Ok (Some {| pattern := u "OTP <ID> sent"; identifiers := [u "5521"; u "7734"] |}) /\
  1 <= occurrences ID (u "OTP <ID> sent") /\
  (forall c, head (u "OTP <ID> sent") = Some c -> isspace c = false) /\
  (forall c, last (u "OTP <ID> sent") = Some c -> isspace c = false).
Proof.
  split; [by vm_compute|].
  apply (pattern_has_placeholder [u " OTP 5521 sent "; u "OTP 7734 sent"]
           {| pattern := u "OTP <ID> sent"; identifiers := [u "5521"; u "7734"] |}).
  by vm_compute.
Defined.

Lemma result_summary_numeric_witness :
  analyze_messages [u "OTP 5521 sent"; u "OTP 77345 sent"] =
    Ok (Some {| pattern := u "OTP <ID> sent"; identifiers := [u "5521"; u "77345"] |}) /\
  (forall id, id ∈ [u "5521"; u "77345"] -> str_isdigit id = true) /\
  summary_of (fun id => format_nat (length id) ++ u "-digit numeric")
    [u "5521"; u "77345"] (get_identifier_type [u "5521"; u "77345"]).
Proof.
  split; [by vm_compute|].
  apply (result_summary_numeric [u "OTP 5521 sent"; u "OTP 77345 sent"]
           {| pattern := u "OTP <ID> sent"; identifiers := [u "5521"; u "77345"] |}).
  by vm_compute.
Defined.

Lemma result_summary_same_length_witness :
  analyze_messages [u "Your code is 9081"; u "Your code is 1234"; u "Your code is 5567"] =
    Ok (Some {| pattern := u "Your code is <ID>";
                identifiers := [u "9081"; u "1234"; u "5567"] |}) /\
  (forall id, id ∈ [u "9081"; u "1234"; u "5567"] -> length id = 4) /\
  get_identifier_type [u "9081"; u "1234"; u "5567"] = u "4-digit numeric".
Proof.
  assert (forall id, id ∈ [u "9081"; u "1234"; u "5567"] -> length id = 4) as Hlen.
  { intros id Hid. repeat (apply elem_of_cons in Hid as [->|Hid]); try done.
    by apply elem_of_nil in Hid. }
  split; [by vm_compute|]. split; [exact Hlen|].
  apply (result_summary_same_length
           [u "Your code is 9081"; u "Your code is 1234"; u "Your code is 5567"]
           {| pattern := u "Your code is <ID>";
              identifiers := [u "9081"; u "1234"; u "5567"] |} 4);
    [by vm_compute|exact Hlen].
Defined.

Lemma summary_depends_on_identifier_set_witness :
  (forall id, id ∈ [u "12"; u "ab"; u "12"] <-> id ∈ [u "ab"; u "12"]) /\
  get_identifier_type [u "12"; u "ab"; u "12"] = get_identifier_type [u "ab"; u "12"].
Proof.
  assert (forall id, id ∈ [u "12"; u "ab"; u "12"] <-> id ∈ [u "ab"; u "12"]) as H.
  { intros id. rewrite !elem_of_cons, !elem_of_nil. tauto. }
  split; [exact H|]. exact (summary_depends_on_identifier_set _ _ H).
Defined.

(** The frame ["OTP "], [" sent in 5 min"] around a run of four digits. *)
Ltac framed_run :=
  split_and!;
    [ unfold maximal_run; split_and!;
        [ done | done | by vm_compute
        | intros ? [= <-]; by vm_compute | intros ? [= <-]; by vm_compute ]
    | vm_compute; repeat constructor
    | vm_compute; repeat constructor ].

Lemma framed_message_extracted_witness :
  (maximal_run isdecimal (u "OTP " ++ u "5521" ++ u " sent in 5 min")
     (u "OTP ") (u "5521") (u " sent in 5 min") /\
   Forall (fun x => length x < length (u "5521")) (findall_digits (u "OTP ")) /\
   Forall (fun x => length x < length (u "5521"))
     (findall_digits (u " sent in 5 min"))) /\
  extract (u "OTP " ++ u "5521" ++ u " sent in 5 min") =
    Ok (Some (u "5521", strip (u "OTP " ++ ID ++ u " sent in 5 min"))).
Proof.
  assert (maximal_run isdecimal (u "OTP " ++ u "5521" ++ u " sent in 5 min")
            (u "OTP ") (u "5521") (u " sent in 5 min") /\
          Forall (fun x => length x < length (u "5521")) (findall_digits (u "OTP ")) /\
          Forall (fun x => length x < length (u "5521"))
            (findall_digits (u " sent in 5 min"))) as H by framed_run.
  split; [exact H|].
  exact (framed_message_extracted _ _ _ (proj1 H) (proj1 (proj2 H)) (proj2 (proj2 H))).
Defined.

Lemma framed_messages_classified_witness :
  [u "5521"; u "77345"] <> [] /\
  analyze_messages
    (map (fun id => u "OTP " ++ id ++ u " sent in 5 min") [u "5521"; u "77345"]) =
    Ok (Some {| pattern := strip (u "OTP " ++ ID ++ u " sent in 5 min");
                identifiers := [u "5521"; u "77345"] |}).
Proof.
  split; [done|].
  apply (framed_messages_classified (u "OTP ") (u " sent in 5 min")
           [u "5521"; u "77345"]); [done|].
  constructor; [framed_run|]. constructor; [framed_run|]. constructor.
Defined.

Lemma detailed_rows_sound_witness :
  exists rows,
    detailed_results (fun s => s) str (fun s => s) sample_rows sample_tags = Ok rows /\
    length rows = 3 /\
    forall d, d ∈ rows ->
      exists r,
        r ∈ sample_rows /\
        detailed_from (fun s => s) r
          (length (records_for (fun s => s) str (fun s => s) sample_rows
                     (number_of (fun s => s) (fun s => s) r))) d /\
        MIN_OCCURRENCES <= d_count d /\
        ~ (exists t, t ∈ sample_tags /\ strip t = number_of (fun s => s) (fun s => s) r).
Proof.
  eexists. split; [by vm_compute|]. split; [done|].
  apply (detailed_rows_sound (fun s => s) str (fun s => s) sample_rows sample_tags).
  by vm_compute.
Defined.

(** The end-to-end sample: the three rows of the number 5000 reach the
    detailed table with their pattern and identifiers, and the summary of
    the identifiers is ["4-digit numeric"]. *)
Example detailed_sample :
  exists rows,
    detailed_results (fun s => s) str (fun s => s) sample_rows sample_tags = Ok rows /\
    map d_identifier rows = [u "9081"; u "1234"; u "5567"] /\
    map d_pattern rows = replicate 3 (u "Your code is <ID>") /\
    map d_count rows = [3; 3; 3] /\
    get_identifier_type (map d_identifier rows) = u "4-digit numeric".
Proof. eexists. split; [by vm_compute|]. by vm_compute. Qed.
